(** * ethical-load-tester-pro: configuration, probes, rate control and run loops

    A shallow embedding of the load-generation core of the Python package
    [ethical_load_tester_pro] ([config.py], [core.py], [real_test.py] and the
    call into [protocols.py]), followed by the properties of the
    specification that hold for it.

    Conventions of the embedding:
    - Python [int] is [Z]; Python [float] (times, delays, derived rates) is
      idealised as an exact rational [Q];
    - Python [str] is [string], restricted to ASCII characters;
    - a raised exception is a value of a sum type ([result]); code that
      talks to the outside world (clock, transport, observer callback) reads
      its observations from a script and appends what it does to a trace. *)

From Stdlib Require Import ZArith QArith Qround List String Ascii Bool Lia Lqa.
Import ListNotations.

Local Open Scope Z_scope.

(** ** Exceptions as values *)

Inductive result (E A : Type) : Type :=
| Ok (a : A)
| Raise (e : E).
Arguments Ok {E A} a.
Arguments Raise {E A} e.

(** [check c else e; k]: raise [e] unless [c] holds, then go on with [k]. *)
Notation "'check' c 'else' e ; k" := (if c then k else Raise e)
  (at level 10, c at level 100, e at level 100, k at level 200).

(** ** Python string operations on ASCII strings *)

Module PyStr.

Local Open Scope nat_scope.

Definition is_upper (c : ascii) : bool :=
  let n := nat_of_ascii c in (65 <=? n) && (n <=? 90).

Definition is_lower (c : ascii) : bool :=
  let n := nat_of_ascii c in (97 <=? n) && (n <=? 122).

(** [str.isspace] on the ASCII range: TAB, LF, VT, FF, CR, the four
    separators FS, GS, RS, US, and the space. *)
Definition is_space (c : ascii) : bool :=
  let n := nat_of_ascii c in
  ((9 <=? n) && (n <=? 13)) || ((28 <=? n) && (n <=? 31)) || (n =? 32).

Definition upper_char (c : ascii) : ascii :=
  if is_lower c then ascii_of_nat (nat_of_ascii c - 32) else c.

Definition lower_char (c : ascii) : ascii :=
  if is_upper c then ascii_of_nat (nat_of_ascii c + 32) else c.

Fixpoint map_chars (f : ascii -> ascii) (s : string) : string :=
  match s with
  | EmptyString => EmptyString
  | String c r => String (f c) (map_chars f r)
  end.

Definition upper : string -> string := map_chars upper_char.
Definition lower : string -> string := map_chars lower_char.

Fixpoint lstrip (s : string) : string :=
  match s with
  | EmptyString => EmptyString
  | String c r => if is_space c then lstrip r else s
  end.

Fixpoint rstrip (s : string) : string :=
  match s with
  | EmptyString => EmptyString
  | String c r =>
      match rstrip r with
      | EmptyString => if is_space c then EmptyString else String c EmptyString
      | r' => String c r'
      end
  end.

Definition strip (s : string) : string := rstrip (lstrip s).

(** [s.startswith(p)] *)
Fixpoint startswith (s p : string) {struct p} : bool :=
  match p with
  | EmptyString => true
  | String a p' =>
      match s with
      | EmptyString => false
      | String b s' => Ascii.eqb a b && startswith s' p'
      end
  end.

(** [s.startswith((p1, p2, ...))] *)
Definition startswith_any (s : string) (ps : list string) : bool :=
  existsb (startswith s) ps.

(** [s in l] for a list of strings *)
Definition mem (s : string) (l : list string) : bool :=
  existsb (String.eqb s) l.

End PyStr.

(** ** config.py: [TestConfig] *)

Module Config.

Local Open Scope string_scope.

Record TestConfig : Type := mkTestConfig {
  target : string;
  port : Z;
  protocol : string;
  duration : Z;
  rate : Z
}.

(** The [ValueError]s of [__post_init__], one constructor per message. *)
Inductive ValueError : Type :=
| TargetEmpty
| UnsupportedProtocol (p : string)
| InvalidPort (p : Z)
| DurationNotPositive
| RateNotPositive.

Definition supported_protocols : list string := ["HTTP"; "HTTPS"; "TCP"; "UDP"].

Definition scheme_prefixes : list string := ["http://"; "https://"].

(** The target after [self.target.strip().lower()]. *)
Definition clean_target (t : string) : string := PyStr.lower (PyStr.strip t).

(** Lines 25-27: the default port of HTTPS replaces port 80. *)
Definition default_port (p : Z) (proto : string) : Z :=
  if Z.eqb p 80 && String.eqb (PyStr.upper proto) "HTTPS" then 443 else p.

(** Lines 39-42: the scheme prefix. *)
Definition scheme_of (proto : string) : string :=
  if String.eqb (PyStr.upper proto) "HTTPS" then "https://" else "http://".

Definition add_prefix (t proto : string) : string :=
  if negb (PyStr.startswith_any t scheme_prefixes) then scheme_of proto ++ t else t.

(** [TestConfig.__post_init__]: runs on the fields given to the
    constructor, in the order of the source; the result is the stored
    object or the exception raised. *)
Definition post_init (c : TestConfig) : result ValueError TestConfig :=
  check negb (String.eqb (target c) "") else TargetEmpty;
  let t := clean_target (target c) in
  check PyStr.mem (PyStr.upper (protocol c)) supported_protocols
    else UnsupportedProtocol (protocol c);
  let p := default_port (port c) (protocol c) in
  check Z.ltb 0 p && Z.leb p 65535 else InvalidPort p;
  check negb (Z.leb (duration c) 0) else DurationNotPositive;
  check negb (Z.leb (rate c) 0) else RateNotPositive;
  Ok {| target := add_prefix t (protocol c);
        port := p;
        protocol := protocol c;
        duration := duration c;
        rate := rate c |}.

(** The constructor call [TestConfig(target=..., port=..., ...)]. *)
Definition construct (t : string) (p : Z) (proto : string) (d r : Z)
  : result ValueError TestConfig :=
  post_init (mkTestConfig t p proto d r).

(** The inputs the checks accept. *)
Definition valid_input (t : string) (p : Z) (proto : string) (d r : Z) : Prop :=
  t <> "" /\
  In (PyStr.upper proto) supported_protocols /\
  0 < p <= 65535 /\ 0 < d /\ 0 < r.

End Config.

(** ** Clock, transport and observer: what the code reads from outside *)

Definition Qltb (a b : Q) : bool := negb (Qle_bool b a).

(** Python [max(a, b)] and [min(a, b)] on numbers: the first argument is
    kept unless the second is strictly larger (smaller). *)
Definition py_max (a b : Q) : Q := if Qltb a b then b else a.
Definition py_min (a b : Q) : Q := if Qltb b a then b else a.

(** Python [int(x)] on a float: truncation toward zero. *)
Definition py_int (x : Q) : Z := Z.quot (Qnum x) (Zpos (Qden x)).

(** One HTTP exchange as a probe observes it.  [Responded status t_headers
    t_body]: [session.get] delivered the response head after [t_headers]
    seconds and [response.read()] needs [t_body] more seconds to drain the
    body.  [Failed err t_fail]: the transport raised an exception (connect
    error, timeout, TLS failure) with text [err], [t_fail] seconds after the
    probe started. *)
Inductive Exchange : Type :=
| Responded (status : Z) (t_headers t_body : Q)
| Failed (err : string) (t_fail : Q).

(** A probe's observations: its exchange and the clock reading
    ([time.time()]) taken when it publishes its statistics. *)
Record ProbeIO : Type := mkProbeIO {
  io_exchange : Exchange;
  io_now : Q
}.

(** An observer callback either returns or raises; it may keep state, so its
    behaviour is a function of the snapshots it was given before (newest
    first) and of the current one. *)
Inductive CbResult : Type :=
| CbReturn
| CbRaise (msg : string).

Definition Callback (S : Type) : Type := list S -> S -> CbResult.

(** ** core.py: [LoadTester] *)

Module Core.

Import Config.

(** [self.stats]; its key ['start_time'] is never written after
    [__init__] and is left out, [self.start_time] is a field of
    [LoadTester] below. *)
Record Stats : Type := mkStats {
  requests_sent : Z;
  success_count : Z;
  total_response_time : Q
}.

(** The dictionary [current_stats] handed to the callback. *)
Record CurrentStats : Type := mkCurrentStats {
  cs_timestamp : Q;
  cs_response_time : Q;
  cs_status_code : Z;
  cs_requests_sent : Z;
  cs_success_rate : Q;
  cs_avg_response : Q;
  cs_current_rate : Q
}.

(** Log lines, kept structured instead of formatted. *)
Inductive Message : Type :=
| RequestError (e : string)
| CallbackError (e : string)
| LoadGenerationError (e : string)
| RateLimited (adjusted_rate : Z)
| Progress (elapsed : Q) (requests : Z)
| Starting (target : string).

(** What the tester does to its collaborators, newest first in [trace]. *)
Inductive Event : Type :=
| LogRequest (status : Z) (response_time : Q)   (* logger.log_request *)
| LogError (m : Message)                         (* logger.log_error *)
| Log (m : Message)                              (* logger.log *)
| CallbackCall (s : CurrentStats) (r : CbResult) (* self.callback(current_stats) *)
| Sleep (d : Q)                                  (* await asyncio.sleep(d) *)
| Report.                                        (* self.generate_report() *)

Record LoadTester : Type := mkLoadTester {
  config : TestConfig;
  running : bool;
  start_time : Q;
  stats : Stats;
  callback : option (Callback CurrentStats);
  trace : list Event
}.

(** [LoadTester.__init__]; [start_time] is [None] in the source until
    [run] or [generate_load] sets it, and no probe is sent before that. *)
Definition new_tester (cfg : TestConfig) : LoadTester :=
  {| config := cfg; running := false; start_time := 0;
     stats := mkStats 0 0 0; callback := None; trace := [] |}.

Definition set_callback (cb : Callback CurrentStats) (t : LoadTester) : LoadTester :=
  {| config := config t; running := running t; start_time := start_time t;
     stats := stats t; callback := Some cb; trace := trace t |}.

Definition emit (e : Event) (t : LoadTester) : LoadTester :=
  {| config := config t; running := running t; start_time := start_time t;
     stats := stats t; callback := callback t; trace := e :: trace t |}.

Definition with_stats (s : Stats) (t : LoadTester) : LoadTester :=
  {| config := config t; running := running t; start_time := start_time t;
     stats := s; callback := callback t; trace := trace t |}.

Definition with_running (b : bool) (t : LoadTester) : LoadTester :=
  {| config := config t; running := b; start_time := start_time t;
     stats := stats t; callback := callback t; trace := trace t |}.

Definition with_start_time (q : Q) (t : LoadTester) : LoadTester :=
  {| config := config t; running := running t; start_time := q;
     stats := stats t; callback := callback t; trace := trace t |}.

(** [TestLogger.errors_count]: one per [log_error]. *)
Fixpoint errors_count (tr : list Event) : Z :=
  match tr with
  | [] => 0
  | LogError _ :: r => 1 + errors_count r
  | _ :: r => errors_count r
  end.

(** How often [generate_report] was called. *)
Fixpoint reports (tr : list Event) : nat :=
  match tr with
  | [] => O
  | Report :: r => S (reports r)
  | _ :: r => reports r
  end.

(** The snapshots the callback has been called with, newest first. *)
Fixpoint snapshots (tr : list Event) : list CurrentStats :=
  match tr with
  | [] => []
  | CallbackCall s _ :: r => s :: snapshots r
  | _ :: r => snapshots r
  end.

(** The body of the [try] around the callback: building [current_stats]
    divides by [requests_sent] and by the elapsed time, which raises
    [ZeroDivisionError] when the divisor is zero; [avg_div] is
    [requests_sent] on the success path and [max(1, requests_sent)] on the
    error path. *)
Definition notify (now response_time : Q) (status avg_div : Z) (t : LoadTester)
  : LoadTester :=
  match callback t with
  | None => t
  | Some cb =>
      let elapsed := (now - start_time t)%Q in
      let s := stats t in
      if requests_sent s =? 0
      then emit (LogError (CallbackError "division by zero")) t
      else if Qeq_bool elapsed 0
      then emit (LogError (CallbackError "float division by zero")) t
      else
        let cs := {| cs_timestamp := elapsed;
                     cs_response_time := response_time;
                     cs_status_code := status;
                     cs_requests_sent := requests_sent s;
                     cs_success_rate :=
                       (inject_Z (success_count s) / inject_Z (requests_sent s) * 100)%Q;
                     cs_avg_response := (total_response_time s / inject_Z avg_div)%Q;
                     cs_current_rate := (inject_Z (requests_sent s) / elapsed)%Q |} in
        let r := cb (snapshots (trace t)) cs in
        let t1 := emit (CallbackCall cs r) t in
        match r with
        | CbReturn => t1
        | CbRaise msg => emit (LogError (CallbackError msg)) t1
        end
  end.

(** [LoadTester._send_http_request]: the value returned, [(status,
    response_time)] or [(None, response_time)], and the tester after it.
    The collaborators called between the statistics update and the
    callback ([lb_detector.analyze_response], which catches its own
    exceptions, and the list append) do not raise. *)
Definition _send_http_request (io : ProbeIO) (t : LoadTester)
  : (option Z * Q) * LoadTester :=
  match io_exchange io with
  | Responded status t_headers t_body =>
      (* async with session.get(...) as response: await response.read() *)
      let response_time := (t_headers + t_body)%Q in
      let t1 := emit (LogRequest status response_time) t in
      let s := stats t1 in
      let s1 := {| requests_sent := requests_sent s + 1;
                   success_count :=
                     if status <? 400 then success_count s + 1 else success_count s;
                   total_response_time := (total_response_time s + response_time)%Q |} in
      let t2 := with_stats s1 t1 in
      let t3 := notify (io_now io) response_time status (requests_sent s1) t2 in
      ((Some status, response_time), t3)
  | Failed err t_fail =>
      let t1 := emit (LogError (RequestError err)) t in
      let s := stats t1 in
      let s1 := {| requests_sent := requests_sent s + 1;
                   success_count := success_count s;
                   total_response_time := total_response_time s |} in
      let t2 := with_stats s1 t1 in
      let t3 := notify (io_now io) t_fail 0 (Z.max 1 (requests_sent s1)) t2 in
      ((None, t_fail), t3)
  end.

(** [await asyncio.gather] with [return_exceptions=True] over the [n]
    probes of a batch.  The probes run on one event loop and each updates the
    statistics without suspending, so the updates are serialised; probe
    [i] of the script is the [i]-th to complete. *)
Fixpoint gather (n : nat) (probes : nat -> ProbeIO) (i : nat) (t : LoadTester)
  : list (option Z * Q) * LoadTester :=
  match n with
  | O => ([], t)
  | S n' =>
      let '(r, t1) := _send_http_request (probes i) t in
      let '(rs, t2) := gather n' probes (S i) t1 in
      (r :: rs, t2)
  end.

(** [sum(1 for r in results if isinstance(r, tuple) and r[0] == 429)] *)
Definition rate_limited (results : list (option Z * Q)) : Z :=
  Z.of_nat (List.length
    (filter (fun r => match fst r with Some st => st =? 429 | None => false end) results)).

(** The two local variables of [generate_load] that control the rate. *)
Record RateState : Type := mkRateState {
  consecutive_429s : Z;
  rate_limit_delay : Q
}.

Definition rate_init : RateState := mkRateState 0 1.

(** [adjusted_rate = max(1, self.config.rate // (2 ** consecutive_429s))] *)
Definition adjusted_rate (rate : Z) (s : RateState) : Z :=
  Z.max 1 (rate / 2 ^ consecutive_429s s).

(** The [if rate_limited > 0: ... else: ...] of the loop body. *)
Definition backoff (limited : Z) (s : RateState) : RateState :=
  if 0 <? limited
  then {| consecutive_429s := Z.min (consecutive_429s s + 1) 5;
          rate_limit_delay := (rate_limit_delay s * (3 # 2))%Q |}
  else {| consecutive_429s := Z.max 0 (consecutive_429s s - 1);
          rate_limit_delay := py_max 1 (rate_limit_delay s * (4 # 5))%Q |}.

(** One pass of the scheduling loop as the script describes it. *)
Record Tick : Type := mkTick {
  tk_stopped : bool;          (* stop() has cleared self.running *)
  tk_now : Q;                 (* time.time() at the duration test *)
  tk_probes : nat -> ProbeIO; (* the exchanges of this batch *)
  tk_now_progress : Q         (* time.time() at the progress line *)
}.

(** The [while self.running:] loop of [generate_load].  [None]: the script
    ends before the loop does.  [gather(..., return_exceptions=True)]
    hands exceptions back as values, so the handler for a batch error is
    not entered by a failing probe and is left out. *)
Fixpoint generate_load_loop (script : list Tick) (rs : RateState) (t : LoadTester)
  : option (RateState * LoadTester) :=
  match script with
  | [] => None
  | tk :: rest =>
      if tk_stopped tk then Some (rs, with_running false t)
      else if Qle_bool (inject_Z (duration (config t))) (tk_now tk - start_time t)%Q
      then Some (rs, t)
      else
        let adjusted := adjusted_rate (rate (config t)) rs in
        let '(results, t1) := gather (Z.to_nat adjusted) (tk_probes tk) 0 t in
        let limited := rate_limited results in
        let rs' := backoff limited rs in
        let t2 :=
          if 0 <? limited
          then emit (Sleep (rate_limit_delay rs')) (emit (Log (RateLimited adjusted)) t1)
          else t1 in
        let t3 := emit (Log (Progress (tk_now_progress tk - start_time t2)%Q
                                       (requests_sent (stats t2)))) t2 in
        generate_load_loop rest rs' (emit (Sleep (rate_limit_delay rs')) t3)
  end.

(** [LoadTester.generate_load]: [session_error] is the exception, if any,
    raised while the connector and the session are created; [now0] is the
    clock at the start. *)
Definition generate_load (session_error : option string) (now0 : Q)
    (script : list Tick) (t : LoadTester) : option (RateState * LoadTester) :=
  match session_error with
  | Some e =>
      Some (rate_init, with_running false (emit (LogError (LoadGenerationError e)) t))
  | None =>
      match generate_load_loop script rate_init
              (with_start_time now0 (with_running true t)) with
      | Some (rs, t1) => Some (rs, with_running false t1)
      | None => None
      end
  end.

(** [LoadTester.run] *)
Definition run (session_error : option string) (now_run now0 : Q)
    (script : list Tick) (t : LoadTester) : option LoadTester :=
  let t0 := emit (Log (Starting (target (config t))))
              (with_start_time now_run (with_running true t)) in
  match generate_load session_error now0 script t0 with
  | Some (_, t1) => Some (emit Report t1)
  | None => None
  end.

(** [LoadTester._send_protocol_request]: the host and port it hands to
    [protocol_handler.send_request], which [TCPProtocol] passes to
    [asyncio.open_connection] and [UDPProtocol] to
    [create_datagram_endpoint] unchanged. *)
Definition _send_protocol_request_args (t : LoadTester) : string * Z :=
  (target (config t), port (config t)).

(** The rate states the loop can be in. *)
Inductive reachable : RateState -> Prop :=
| reach_init : reachable rate_init
| reach_step : forall limited s, reachable s -> reachable (backoff limited s).

(** The rate state after [n] rate-limited batches in a row. *)
Definition limited_run (n : nat) : RateState := Nat.iter n (backoff 1) rate_init.

(** A script in which every probe is answered with status 429.  The loop
    sleeps the new delay twice after such a batch, so pass [k] starts less
    than [6 * 1.5^k] seconds of sleep into the run; [limited_clock k] is
    that reading.  [limited_script k n] describes passes [k], ..., [k + n - 1]
    and then a stop. *)
Definition limited_probe : nat -> ProbeIO :=
  fun _ => mkProbeIO (Responded 429 (1 # 10) (1 # 10)) 0.

Definition limited_clock (k : nat) : Q := (6 * rate_limit_delay (limited_run k))%Q.

Fixpoint limited_script (k n : nat) : list Tick :=
  match n with
  | O => [mkTick true (limited_clock k) limited_probe (limited_clock k)]
  | S n' =>
      mkTick false (limited_clock k) limited_probe (limited_clock k)
        :: limited_script (S k) n'
  end.

(** The tick at which the loop of a tester started at [now0] with the
    given duration ends. *)
Definition ends_loop (duration : Z) (now0 : Q) (tk : Tick) : bool :=
  tk_stopped tk || Qle_bool (inject_Z duration) (tk_now tk - now0)%Q.

(** What the scheduling loop never changes. *)
Definition same_run (t t' : LoadTester) : Prop :=
  config t' = config t /\ start_time t' = start_time t
  /\ reports (trace t') = reports (trace t).

(** [visits t t']: the tester is in state [t'] at some point after it was
    in state [t]; the steps are the state changes the methods above are
    made of. *)
Inductive visits (t : LoadTester) : LoadTester -> Prop :=
| visit_refl : visits t t
| visit_probe : forall io t', visits t t' -> visits t (snd (_send_http_request io t'))
| visit_emit : forall e t', visits t t' -> visits t (emit e t')
| visit_running : forall b t', visits t t' -> visits t (with_running b t')
| visit_start_time : forall q t', visits t t' -> visits t (with_start_time q t')
| visit_callback : forall cb t', visits t t' -> visits t (set_callback cb t').

End Core.

(** ** real_test.py: [RealLoadTest] *)

Module RealTest.

(** [self.stats]; ['start_time'] is [None] in the source until [start]
    sets it, and nothing reads it before that. *)
Record Stats : Type := mkStats {
  requests_sent : Z;
  success_count : Z;
  error_count : Z;
  total_response_time : Q;
  start_time : Q;
  current_users : Z;
  current_rate : Q;
  success_rate : Q;
  avg_response : Q;
  test_duration : Q;
  progress : Q
}.

Inductive Event : Type :=
| Print (label msg : string)               (* print(f"{label}: {msg}") *)
| CallbackCall (s : Stats) (r : CbResult)  (* self.callback(dict(self.stats)) *)
| Sleep (d : Q).                           (* await asyncio.sleep(d) *)

Record RealLoadTest : Type := mkRealLoadTest {
  target : string;
  max_users : Z;
  ramp_up_time : Z;
  running : bool;
  paused : bool;
  callback : option (Callback Stats);
  stats : Stats;
  test_completed : bool;
  target_rate : Z;
  trace : list Event
}.

(** [RealLoadTest.__init__] *)
Definition new_test (tgt : string) (users ramp : Z) : RealLoadTest :=
  {| target := if negb (PyStr.startswith_any tgt Config.scheme_prefixes)
               then ("https://" ++ tgt)%string else tgt;
     max_users := users;
     ramp_up_time := ramp;
     running := false;
     paused := false;
     callback := None;
     stats := mkStats 0 0 0 0 0 0 0 0 0 0 0;
     test_completed := false;
     target_rate := users;
     trace := [] |}.

Definition with_stats (s : Stats) (t : RealLoadTest) : RealLoadTest :=
  {| target := target t; max_users := max_users t; ramp_up_time := ramp_up_time t;
     running := running t; paused := paused t; callback := callback t;
     stats := s; test_completed := test_completed t;
     target_rate := target_rate t; trace := trace t |}.

Definition with_flags (run done : bool) (t : RealLoadTest) : RealLoadTest :=
  {| target := target t; max_users := max_users t; ramp_up_time := ramp_up_time t;
     running := run; paused := paused t; callback := callback t;
     stats := stats t; test_completed := done;
     target_rate := target_rate t; trace := trace t |}.

Definition emit (e : Event) (t : RealLoadTest) : RealLoadTest :=
  {| target := target t; max_users := max_users t; ramp_up_time := ramp_up_time t;
     running := running t; paused := paused t; callback := callback t;
     stats := stats t; test_completed := test_completed t;
     target_rate := target_rate t; trace := e :: trace t |}.

(** [set_callback]; the argument is callable. *)
Definition set_callback (cb : Callback Stats) (t : RealLoadTest) : RealLoadTest :=
  {| target := target t; max_users := max_users t; ramp_up_time := ramp_up_time t;
     running := running t; paused := paused t; callback := Some cb;
     stats := stats t; test_completed := test_completed t;
     target_rate := target_rate t; trace := trace t |}.

(** The snapshots the callback has been called with, newest first. *)
Fixpoint snapshots (tr : list Event) : list Stats :=
  match tr with
  | [] => []
  | CallbackCall s _ :: r => s :: snapshots r
  | _ :: r => snapshots r
  end.

(** [RealLoadTest._send_request].  The response time is taken as soon as
    [session.get] has delivered the response head; the body is not read. *)
Definition _send_request (io : ProbeIO) (t : RealLoadTest)
  : (option Z * Q) * RealLoadTest :=
  let s := stats t in
  match io_exchange io with
  | Responded status t_headers _ =>
      let response_time := t_headers in
      let sent := requests_sent s + 1 in
      let succ := if status <? 400 then success_count s + 1 else success_count s in
      let total := (total_response_time s + response_time)%Q in
      let total_requests := Z.max 1 sent in
      let s1 := {| requests_sent := sent;
                   success_count := succ;
                   error_count := error_count s;
                   total_response_time := total;
                   start_time := start_time s;
                   current_users := current_users s;
                   current_rate := current_rate s;
                   success_rate := (inject_Z succ / inject_Z total_requests * 100)%Q;
                   avg_response := (total / inject_Z total_requests)%Q;
                   test_duration := (io_now io - start_time s)%Q;
                   progress := progress s |} in
      ((Some status, response_time), with_stats s1 t)
  | Failed _ t_fail =>
      let s1 := {| requests_sent := requests_sent s;
                   success_count := success_count s;
                   error_count := error_count s + 1;
                   total_response_time := total_response_time s;
                   start_time := start_time s;
                   current_users := current_users s;
                   current_rate := current_rate s;
                   success_rate := success_rate s;
                   avg_response := avg_response s;
                   test_duration := test_duration s;
                   progress := progress s |} in
      ((None, t_fail), with_stats s1 t)
  end.

(** [await asyncio.gather] over the probes of a batch, serialised as in
    [Core.gather]. *)
Fixpoint gather (n : nat) (probes : nat -> ProbeIO) (i : nat) (t : RealLoadTest)
  : list (option Z * Q) * RealLoadTest :=
  match n with
  | O => ([], t)
  | S n' =>
      let '(r, t1) := _send_request (probes i) t in
      let '(rs, t2) := gather n' probes (S i) t1 in
      (r :: rs, t2)
  end.

(** One pass of the loop of [start] as the script describes it. *)
Record Tick : Type := mkTick {
  tk_stopped : bool;          (* stop() has cleared self.running *)
  tk_paused : bool;           (* self.paused, set by pause() and resume() *)
  tk_now : Q;                 (* time.time() at the top of the loop *)
  tk_now_load : Q;            (* time.time() inside generate_load *)
  tk_probes : nat -> ProbeIO  (* the exchanges of this batch *)
}.

(** The batch size computed by [generate_load]. *)
Definition requests_needed (elapsed : Q) (t : RealLoadTest) : Z :=
  let target_requests := py_int (elapsed * inject_Z (target_rate t))%Q in
  let actual_requests := requests_sent (stats t) in
  Z.max 1 (Z.min (target_requests - actual_requests) (target_rate t)).

Definition set_current_users (n : Z) (s : Stats) : Stats :=
  {| requests_sent := requests_sent s; success_count := success_count s;
     error_count := error_count s; total_response_time := total_response_time s;
     start_time := start_time s; current_users := n;
     current_rate := current_rate s; success_rate := success_rate s;
     avg_response := avg_response s; test_duration := test_duration s;
     progress := progress s |}.

Definition set_progress (p : Q) (s : Stats) : Stats :=
  {| requests_sent := requests_sent s; success_count := success_count s;
     error_count := error_count s; total_response_time := total_response_time s;
     start_time := start_time s; current_users := current_users s;
     current_rate := current_rate s; success_rate := success_rate s;
     avg_response := avg_response s; test_duration := test_duration s;
     progress := p |}.

Definition set_start_time (q : Q) (s : Stats) : Stats :=
  {| requests_sent := requests_sent s; success_count := success_count s;
     error_count := error_count s; total_response_time := total_response_time s;
     start_time := q; current_users := current_users s;
     current_rate := current_rate s; success_rate := success_rate s;
     avg_response := avg_response s; test_duration := test_duration s;
     progress := progress s |}.

(** The [self.stats.update({...})] that ends a batch. *)
Definition update_progress (elapsed : Q) (ramp : Z) (s : Stats) : Stats :=
  {| requests_sent := requests_sent s; success_count := success_count s;
     error_count := error_count s; total_response_time := total_response_time s;
     start_time := start_time s; current_users := current_users s;
     current_rate := (inject_Z (requests_sent s) / py_max (1 # 10) elapsed)%Q;
     success_rate := success_rate s; avg_response := avg_response s;
     test_duration := elapsed;
     progress := py_min 100 (elapsed / inject_Z ramp * 100)%Q |}.

(** [RealLoadTest.generate_load]: the results of the batch and the test
    after it.  The division by [ramp_up_time] raises when it is zero; the
    handler of the function prints the error. *)
Definition generate_load (tk : Tick) (t : RealLoadTest)
  : list (option Z * Q) * RealLoadTest :=
  let elapsed := (tk_now_load tk - start_time (stats t))%Q in
  let n := requests_needed elapsed t in
  let t1 := with_stats (set_current_users n (stats t)) t in
  let '(results, t2) := gather (Z.to_nat n) (tk_probes tk) 0 t1 in
  if ramp_up_time t2 =? 0
  then (results, emit (Print "Load generation error" "float division by zero") t2)
  else
    let t3 := with_stats (update_progress elapsed (ramp_up_time t2) (stats t2)) t2 in
    if Qltb (inject_Z (target_rate t3)) (current_rate (stats t3))
    then (results, emit (Sleep (1 # 20)) t3)
    else (results, t3).

(** The [while self.running and not self.test_completed:] loop of
    [start].  The result is the exception that leaves the loop, if any,
    and the test at that point; [None]: the script ends before the loop
    does. *)
Fixpoint start_loop (script : list Tick) (t : RealLoadTest)
  : option (option string * RealLoadTest) :=
  match script with
  | [] => None
  | tk :: rest =>
      if tk_stopped tk then Some (None, with_flags false (test_completed t) t)
      else if test_completed t then Some (None, t)
      else if Qle_bool (inject_Z (ramp_up_time t)) (tk_now tk - start_time (stats t))%Q
      then Some (None, with_flags (running t) true t)
      else if tk_paused tk
      then start_loop rest (emit (Sleep (1 # 100)) t)
      else
        let '(_, t1) := generate_load tk t in
        match callback t1 with
        | None => start_loop rest (emit (Sleep (1 # 100)) t1)
        | Some cb =>
            let snap := stats t1 in
            let r := cb (snapshots (trace t1)) snap in
            let t2 := emit (CallbackCall snap r) t1 in
            match r with
            | CbReturn => start_loop rest (emit (Sleep (1 # 100)) t2)
            | CbRaise msg => Some (Some msg, t2)
            end
        end
  end.

(** The [try] of [start] with its [except Exception] handler:
    [session_error] is the exception, if any, raised while the connector
    and the session are created, [now0] the clock at the start. *)
Definition start_try (session_error : option string) (now0 : Q)
    (script : list Tick) (t : RealLoadTest) : option RealLoadTest :=
  let t0 := with_stats (set_start_time now0 (stats t)) (with_flags true false t) in
  match session_error with
  | Some e => Some (emit (Print "Test error" e) t0)
  | None =>
      match start_loop script t0 with
      | None => None
      | Some (None, t1) => Some t1
      | Some (Some e, t1) => Some (emit (Print "Test error" e) t1)
      end
  end.

(** How a call of [start] ends. *)
Inductive Outcome : Type :=
| Returned
| Raised (msg : string).

(** The [finally] of [start]; an exception of the callback leaves
    [start]. *)
Definition start_finally (t : RealLoadTest) : Outcome * RealLoadTest :=
  let t1 := with_flags false true t in
  match callback t1 with
  | None => (Returned, t1)
  | Some cb =>
      let t2 := with_stats (set_progress 100 (stats t1)) t1 in
      let snap := stats t2 in
      let r := cb (snapshots (trace t2)) snap in
      (match r with CbReturn => Returned | CbRaise msg => Raised msg end,
       emit (CallbackCall snap r) t2)
  end.

(** [RealLoadTest.start] *)
Definition start (session_error : option string) (now0 : Q)
    (script : list Tick) (t : RealLoadTest) : option (Outcome * RealLoadTest) :=
  match start_try session_error now0 script t with
  | None => None
  | Some t1 => Some (start_finally t1)
  end.

(** The tick at which the loop of a test started at [now0] with ramp-up
    time [ramp] ends. *)
Definition ends_loop (ramp : Z) (now0 : Q) (tk : Tick) : bool :=
  tk_stopped tk || Qle_bool (inject_Z ramp) (tk_now tk - now0)%Q.

(** The number of snapshots handed to the callback. *)
Definition emitted (t : RealLoadTest) : nat := List.length (snapshots (trace t)).

(** What a run never changes once [start] has set the start time. *)
Definition same_run (t t' : RealLoadTest) : Prop :=
  start_time (stats t') = start_time (stats t)
  /\ ramp_up_time t' = ramp_up_time t
  /\ callback t' = callback t
  /\ test_completed t' = test_completed t.

(** [visits t t']: the test is in state [t'] at some point after it was
    in state [t]. *)
Inductive visits (t : RealLoadTest) : RealLoadTest -> Prop :=
| visit_refl : visits t t
| visit_probe : forall io t', visits t t' -> visits t (snd (_send_request io t'))
| visit_emit : forall e t', visits t t' -> visits t (emit e t')
| visit_flags : forall r d t', visits t t' -> visits t (with_flags r d t')
| visit_users : forall n t',
    visits t t' -> visits t (with_stats (set_current_users n (stats t')) t')
| visit_update : forall e r t',
    visits t t' -> visits t (with_stats (update_progress e r (stats t')) t')
| visit_progress : forall p t',
    visits t t' -> visits t (with_stats (set_progress p (stats t')) t')
| visit_start_time : forall q t',
    visits t t' -> visits t (with_stats (set_start_time q (stats t')) t')
| visit_callback : forall cb t', visits t t' -> visits t (set_callback cb t').

End RealTest.

(** ** The controller of section 4.3 of the specification, in its words *)

Module SpecRate.

(** [requests_due]: [max(0, floor(elapsed * effective_rate) -
    requests_already_sent)], clamped to at most [target_rate]. *)
Definition requests_due (elapsed effective_rate : Q) (requests_already_sent target_rate : Z)
  : Z :=
  Z.min (Z.max 0 (Qfloor (elapsed * effective_rate) - requests_already_sent)) target_rate.

(** "The next tick's effective rate is exactly half the previous one." *)
Definition halved (previous next : Z) : Prop :=
  (inject_Z next == inject_Z previous / 2)%Q.

End SpecRate.

(** ** logger.py: [TestLogger] *)

Module Logger.

(** A [dict] with integer keys and values, in insertion order. *)
Definition Dict : Type := list (Z * Z).

(** [d.get(k)] *)
Fixpoint dict_get (k : Z) (d : Dict) : option Z :=
  match d with
  | [] => None
  | (k', v) :: r => if k =? k' then Some v else dict_get k r
  end.

(** [d[k] = v]: the value of an existing key is replaced where it stands,
    a new key is added at the end. *)
Fixpoint dict_set (k v : Z) (d : Dict) : Dict :=
  match d with
  | [] => [(k, v)]
  | (k', v') :: r => if k =? k' then (k, v) :: r else (k', v') :: dict_set k v r
  end.

(** [sum(d.values())] *)
Fixpoint dict_total (d : Dict) : Z :=
  match d with
  | [] => 0
  | (_, v) :: r => v + dict_total r
  end.

(** The counters and collections of [TestLogger]; the start time and the
    handlers of the [logging] module are left out. *)
Record TestLogger : Type := mkTestLogger {
  requests_count : Z;
  errors_count : Z;
  response_times : list Q;
  status_codes : Dict
}.

(** [TestLogger.__init__] *)
Definition new_logger : TestLogger := mkTestLogger 0 0 [] [].

Definition max_stored_responses : Z := 10000.

(** [l[-k:]] for a positive [k]: the last [k] items, or all of [l]. *)
Definition last_items {A : Type} (k : Z) (l : list A) : list A :=
  skipn (Z.to_nat (Z.of_nat (List.length l) - k)) l.

(** [TestLogger.log_request] *)
Definition log_request (status_code : Z) (response_time : Q) (lg : TestLogger)
  : TestLogger :=
  let kept :=
    if max_stored_responses <=? Z.of_nat (List.length (response_times lg))
    then last_items (max_stored_responses / 2) (response_times lg)
    else response_times lg in
  let seen := match dict_get status_code (status_codes lg) with
              | Some c => c
              | None => 0
              end in
  {| requests_count := requests_count lg + 1;
     errors_count := errors_count lg;
     response_times := kept ++ [response_time];
     status_codes := dict_set status_code (seen + 1) (status_codes lg) |}.

(** [TestLogger.log_error]; the message goes to the [logging] module. *)
Definition log_error (lg : TestLogger) : TestLogger :=
  {| requests_count := requests_count lg;
     errors_count := errors_count lg + 1;
     response_times := response_times lg;
     status_codes := status_codes lg |}.

(** A call of one of the two methods, and the logger after a sequence of
    calls on a new logger. *)
Inductive Call : Type :=
| Request (status_code : Z) (response_time : Q)
| Error (message : string).

Definition call (lg : TestLogger) (c : Call) : TestLogger :=
  match c with
  | Request s rt => log_request s rt lg
  | Error _ => log_error lg
  end.

Definition after (calls : list Call) : TestLogger := fold_left call calls new_logger.

(** What a sequence of calls contains: the response times in the order
    they were logged, the number of requests with a given status code, and
    the numbers of requests and of errors. *)
Fixpoint history (calls : list Call) : list Q :=
  match calls with
  | [] => []
  | Request _ rt :: r => rt :: history r
  | Error _ :: r => history r
  end.

Fixpoint occurrences (code : Z) (calls : list Call) : Z :=
  match calls with
  | [] => 0
  | Request s _ :: r => (if s =? code then 1 else 0) + occurrences code r
  | Error _ :: r => occurrences code r
  end.

Fixpoint errors (calls : list Call) : Z :=
  match calls with
  | [] => 0
  | Request _ _ :: r => errors r
  | Error _ :: r => 1 + errors r
  end.





(** The lines of the "Status Code Distribution" of [generate_report], one
    per item of the histogram: the status code, its count, and the divisor
    of the percentage [count / self.requests_count * 100]; [None] when the
    division raises [ZeroDivisionError].  The percentage is a quotient of
    floats, which rounds: a line holds its two operands, not its value. *)
Record DistributionLine : Type := mkDistributionLine {
  dl_code : Z;
  dl_count : Z;
  dl_divisor : Z
}.

Fixpoint distribution (total : Z) (d : Dict) : option (list DistributionLine) :=
  match d with
  | [] => Some []
  | (code, count) :: r =>
      if total =? 0 then None
      else option_map (cons (mkDistributionLine code count total))
                      (distribution total r)
  end.

Definition status_code_distribution (lg : TestLogger) : option (list DistributionLine) :=
  distribution (requests_count lg) (status_codes lg).

End Logger.

(** ** protocols.py: [TCPProtocol] and [UDPProtocol] *)

Module Protocols.

Record ProtocolResult : Type := mkProtocolResult {
  success : bool;
  response_time : Q;
  error : option string;
  response : option (list Byte.byte)
}.

(** What an awaited call of the transport does: it completes with a value
    or raises an exception with the given text. *)
Inductive Step (A : Type) : Type :=
| Done (a : A)
| Fails (msg : string).
Arguments Done {A} a.
Arguments Fails {A} msg.



(** What [wait_for(protocol.receive(), timeout=5.0)] does: a datagram
    arrives, the timeout expires, or the future carries the exception given
    to [error_received]. *)
Inductive Received : Type :=
| Datagram (data : list Byte.byte)
| NoReply
| ReceiveError (msg : string).

Record UdpIO : Type := mkUdpIO {
  udp_start : Q;
  udp_endpoint : Step unit;            (* create_datagram_endpoint(...) *)
  udp_send : Step unit;                (* transport.sendto(b"PROBE\n") *)
  udp_receive : Received;
  udp_end : Q
}.

(** The truth value of a [bytes] object or [None]. *)
Definition truthy (r : option (list Byte.byte)) : bool :=
  match r with
  | Some (_ :: _) => true
  | _ => false
  end.

(** [UDPProtocol.send_request] *)
Definition udp_send_request (io : UdpIO) : ProtocolResult :=
  let elapsed := (udp_end io - udp_start io)%Q in
  let failed := fun msg => mkProtocolResult false elapsed (Some msg) None in
  match udp_endpoint io with
  | Fails msg => failed msg
  | Done _ =>
      match udp_send io with
      | Fails msg => failed msg
      | Done _ =>
          match udp_receive io with
          | ReceiveError msg => failed msg
          | NoReply => mkProtocolResult (truthy None) elapsed None None
          | Datagram data => mkProtocolResult (truthy (Some data)) elapsed None (Some data)
          end
      end
  end.


End Protocols.

(** ** core.py: the loops without rate control *)

Module Loops.

Import Config.

(** The number of passes a loop makes over a script before the tick that
    ends it. *)
Fixpoint passes {T : Type} (ends : T -> bool) (script : list T) : nat :=
  match script with
  | [] => O
  | tk :: rest => if ends tk then O else S (passes ends rest)
  end.












(** The [while self.running:] loop of [LoadTester._generate_http_load],
    inside its session: [self.config.rate] probes and one second of sleep
    per pass. *)
Fixpoint _generate_http_load (script : list Core.Tick) (t : Core.LoadTester)
  : option Core.LoadTester :=
  match script with
  | [] => None
  | tk :: rest =>
      if Core.tk_stopped tk then Some (Core.with_running false t)
      else if Qle_bool (inject_Z (duration (Core.config t)))
                (Core.tk_now tk - Core.start_time t)%Q
      then Some t
      else
        let '(_, t1) := Core.gather (Z.to_nat (rate (Core.config t)))
                          (Core.tk_probes tk) 0 t in
        _generate_http_load rest (Core.emit (Core.Sleep 1) t1)
  end.

(** The log lines of requests and of request errors in a trace. *)
Fixpoint logged_requests (tr : list Core.Event) : Z :=
  match tr with
  | [] => 0
  | Core.LogRequest _ _ :: r => 1 + logged_requests r
  | _ :: r => logged_requests r
  end.

Fixpoint logged_successes (tr : list Core.Event) : Z :=
  match tr with
  | [] => 0
  | Core.LogRequest status _ :: r =>
      (if status <? 400 then 1 else 0) + logged_successes r
  | _ :: r => logged_successes r
  end.

Fixpoint request_errors (tr : list Core.Event) : Z :=
  match tr with
  | [] => 0
  | Core.LogError (Core.RequestError _) :: r => 1 + request_errors r
  | _ :: r => request_errors r
  end.

(** The statistics agree with the log: every request counted is a logged
    response or a logged request error, every success a logged response
    with a status below 400. *)
Definition accounted (t : Core.LoadTester) : Prop :=
  Core.requests_sent (Core.stats t)
  = logged_requests (Core.trace t) + request_errors (Core.trace t)
  /\ Core.success_count (Core.stats t) = logged_successes (Core.trace t).

End Loops.

(** ** What an observer of [RealLoadTest] sees *)

Module Observer.

(** The progress of the test and of every snapshot handed to the callback
    so far is at most 100. *)
Definition progress_bounded (t : RealTest.RealLoadTest) : Prop :=
  (RealTest.progress (RealTest.stats t) <= 100)%Q
  /\ Forall (fun s => (RealTest.progress s <= 100)%Q)
            (RealTest.snapshots (RealTest.trace t)).

(** The passes of the loop of [start] in which the test is not paused,
    before the tick that ends the loop. *)
Fixpoint unpaused_passes (ends : RealTest.Tick -> bool) (script : list RealTest.Tick)
  : nat :=
  match script with
  | [] => O
  | tk :: rest =>
      if ends tk then O
      else ((if RealTest.tk_paused tk then 0 else 1) + unpaused_passes ends rest)%nat
  end.

End Observer.

(** ** gui.py: how [start_test] builds the test *)

Module Gui.

(** [LoadTesterGUI.start_test], from the values of the entries (the port,
    the duration and the rate after [int(...)]) to the validated
    configuration and the test it starts; [cb] is the bound method
    [_update_stats_gui]. *)
Definition start_test (cb : Callback RealTest.Stats) (target protocol : string)
    (port duration rate : Z)
  : result Config.ValueError (Config.TestConfig * RealTest.RealLoadTest) :=
  match Config.construct target port (PyStr.lower protocol) duration rate with
  | Raise e => Raise e
  | Ok config =>
      Ok (config, RealTest.set_callback cb (RealTest.new_test target rate duration))
  end.

End Gui.

(** ** website_analyzer.py: [ensure_https] *)

Module WebsiteAnalyzer.

(** [s[n:]] *)
Fixpoint drop (n : nat) (s : string) : string :=
  match n, s with
  | O, _ => s
  | S n', String _ r => drop n' r
  | S _, EmptyString => EmptyString
  end.

(** [WebsiteAnalyzer.ensure_https] *)
Definition ensure_https (url : string) : string :=
  if negb (PyStr.startswith_any url Config.scheme_prefixes)
  then ("https://" ++ url)%string
  else if PyStr.startswith url "http://"
  then ("https://" ++ drop 7 url)%string
  else url.

End WebsiteAnalyzer.

(** ** visualizer.py: [_cleanup_old_reports] *)

Module Visualizer.

Definition max_reports : nat := 10.

(** The [while len(reports) > self.max_reports:] loop over the report
    files, oldest first as [sorted] returns them: the files deleted, the
    files left, and whether an [unlink] raised, which ends the loop with a
    warning. *)
Fixpoint cleanup_loop {F : Type} (unlink_fails : F -> bool) (reports : list F)
  : list F * list F * bool :=
  match reports with
  | [] => ([], [], false)
  | f :: rest =>
      if (max_reports <? List.length reports)%nat
      then if unlink_fails f then ([], reports, true)
           else let '(deleted, kept, warned) := cleanup_loop unlink_fails rest in
                (f :: deleted, kept, warned)
      else ([], reports, false)
  end.

End Visualizer.

(** * Properties *)

(** ** The embedding on concrete inputs *)

Example strip_example :
  PyStr.strip (String "009" " Example.COM  ") = "Example.COM"%string.
Proof. reflexivity. Qed.

Example construct_https_example :
  Config.construct "  Example.COM " 80 "https" 60 100
  = Ok (Config.mkTestConfig "https://example.com" 443 "https" 60 100).
Proof. reflexivity. Qed.

Example construct_tcp_example :
  Config.construct "10.0.0.1" 9000 "tcp" 5 1
  = Ok (Config.mkTestConfig "http://10.0.0.1" 9000 "tcp" 5 1).
Proof. reflexivity. Qed.

Example construct_ftp_example :
  Config.construct "example.com" 21 "ftp" 60 100
  = Raise (Config.UnsupportedProtocol "ftp").
Proof. reflexivity. Qed.

Example construct_port_example :
  Config.construct "example.com" 70000 "http" 60 100 = Raise (Config.InvalidPort 70000).
Proof. reflexivity. Qed.

(** Three of the ten probes of the first batch are answered with 429: the
    second batch has five probes and is clean, the loop is stopped at the
    third pass, after fifteen requests. *)
Example three_of_ten_rate_limited :
  let probe := fun i : nat =>
                 mkProbeIO (Responded (if (i <? 3)%nat then 429 else 200) (1 # 20) (1 # 50))
                           1 in
  let clean := fun _ : nat => mkProbeIO (Responded 200 (1 # 20) (1 # 50)) 4 in
  let cfg := Config.mkTestConfig "http://example.com" 80 "http" 60 10 in
  let script := [ Core.mkTick false 0 probe 1; Core.mkTick false 4 clean 5;
                  Core.mkTick true 6 clean 6 ] in
  option_map
    (fun r : Core.RateState * Core.LoadTester =>
       (Core.consecutive_429s (fst r),
        Core.requests_sent (Core.stats (snd r)),
        Core.success_count (Core.stats (snd r))))
    (Core.generate_load None 0 script (Core.new_tester cfg))
  = Some (0, 15, 12)
  /\ Core.adjusted_rate 10 (Core.backoff 3 Core.rate_init) = 5.
Proof. split; vm_compute; reflexivity. Qed.

(** ** Configuration *)

Section ConfigFacts.

Import Config.
Local Open Scope string_scope.

Lemma mem_In (s : string) (l : list string) : PyStr.mem s l = true <-> In s l.
Proof.
  unfold PyStr.mem. rewrite existsb_exists. split.
  - intros [x [Hin Heq]]. apply String.eqb_eq in Heq. now subst.
  - intros Hin. exists s. split; [assumption | apply String.eqb_refl].
Qed.

(** What [post_init] stores when it returns. *)
Lemma construct_ok_inv t p proto d r c :
  construct t p proto d r = Ok c ->
  c = {| target := add_prefix (clean_target t) proto;
         port := default_port p proto;
         protocol := proto; duration := d; rate := r |}
  /\ t <> "" /\ In (PyStr.upper proto) supported_protocols
  /\ 0 < default_port p proto <= 65535 /\ 0 < d /\ 0 < r.
Proof.
  unfold construct, post_init. cbn [target port protocol duration rate].
  destruct (String.eqb_spec t "") as [Ht | Ht]; cbn [negb]; [discriminate |].
  destruct (PyStr.mem (PyStr.upper proto) supported_protocols) eqn:Hm; [| discriminate].
  destruct (Z.ltb_spec 0 (default_port p proto)) as [Hp1 | Hp1];
    destruct (Z.leb_spec (default_port p proto) 65535) as [Hp2 | Hp2];
    cbn [andb]; try discriminate.
  destruct (Z.leb_spec d 0) as [Hd | Hd]; cbn [negb]; [discriminate |].
  destruct (Z.leb_spec r 0) as [Hr | Hr]; cbn [negb]; [discriminate |].
  intros H. injection H as <-. apply mem_In in Hm. repeat split; assumption.
Qed.

Lemma construct_valid t p proto d r :
  t <> "" -> In (PyStr.upper proto) supported_protocols ->
  0 < default_port p proto <= 65535 -> 0 < d -> 0 < r ->
  construct t p proto d r
  = Ok {| target := add_prefix (clean_target t) proto;
          port := default_port p proto;
          protocol := proto; duration := d; rate := r |}.
Proof.
  intros Ht Hm [Hp1 Hp2] Hd Hr.
  unfold construct, post_init. cbn [target port protocol duration rate].
  destruct (String.eqb_spec t "") as [Ht' | _]; [contradiction |]. cbn [negb].
  apply mem_In in Hm. rewrite Hm.
  destruct (Z.ltb_spec 0 (default_port p proto)); [| lia].
  destruct (Z.leb_spec (default_port p proto) 65535); [| lia]. cbn [andb].
  destruct (Z.leb_spec d 0); [lia |]. destruct (Z.leb_spec r 0); [lia |].
  reflexivity.
Qed.

Lemma default_port_range p proto : 0 < p <= 65535 -> 0 < default_port p proto <= 65535.
Proof.
  unfold default_port.
  destruct (Z.eqb p 80 && String.eqb (PyStr.upper proto) "HTTPS"); lia.
Qed.

Lemma default_port_bad p proto :
  p = 0 \/ p = 70000 -> ~ 0 < default_port p proto <= 65535.
Proof.
  unfold default_port. intros [-> | ->]; simpl; lia.
Qed.

Lemma add_prefix_scheme t proto :
  PyStr.startswith_any (add_prefix t proto) scheme_prefixes = true.
Proof.
  unfold add_prefix.
  destruct (PyStr.startswith_any t scheme_prefixes) eqn:H; cbn [negb]; [assumption |].
  unfold scheme_of. destruct (String.eqb (PyStr.upper proto) "HTTPS"); cbn; reflexivity.
Qed.

End ConfigFacts.

(** C5.  Constructing a [TestConfig] with port 0, port 70000, duration 0,
    rate -5 or protocol "ftp" raises a [ValueError], whatever the other
    fields are; the constructor is a function of its arguments only, so
    nothing else has happened by then.  For every valid input (non-empty
    target, supported protocol in any letter case, port in 1..65535, positive
    duration and rate) the construction succeeds. *)
Theorem C5_config_validation :
  forall (t : string) (p : Z) (proto : string) (d r : Z),
    (p = 0 \/ p = 70000 \/ d = 0 \/ r = -5 \/ proto = "ftp"%string ->
     exists e, Config.construct t p proto d r = Raise e)
    /\ (Config.valid_input t p proto d r ->
        exists c, Config.construct t p proto d r = Ok c).
Proof.
  intros t p proto d r. split.
  - intros Hbad.
    destruct (Config.construct t p proto d r) as [c | e] eqn:Hc; [| now exists e].
    exfalso. apply construct_ok_inv in Hc.
    destruct Hc as (_ & _ & Hproto & Hport & Hd & Hr).
    destruct Hbad as [Hp | [Hp | [Hd0 | [Hr5 | Hftp]]]].
    + eapply default_port_bad; [left; exact Hp | exact Hport].
    + eapply default_port_bad; [right; exact Hp | exact Hport].
    + lia.
    + lia.
    + subst proto. cbn in Hproto.
      repeat (destruct Hproto as [Hproto | Hproto]; [discriminate |]).
      exact Hproto.
  - intros (Ht & Hproto & Hp & Hd & Hr).
    eexists. apply construct_valid; try assumption.
    now apply default_port_range.
Qed.

Lemma C5_config_validation_witness :
  (exists e, Config.construct "example.com" 0 "http" 60 100 = Raise e)
  /\ (exists c, Config.construct "example.com" 8080 "http" 60 100 = Ok c).
Proof.
  split.
  - apply (proj1 (C5_config_validation "example.com" 0 "http" 60 100)).
    left. reflexivity.
  - apply (proj2 (C5_config_validation "example.com" 8080 "http" 60 100)).
    unfold Config.valid_input.
    split; [discriminate |].
    split; [simpl; left; reflexivity |].
    lia.
Defined.

(** C9.  A construction with protocol HTTPS (in any letter case) and port 80
    succeeds, given a non-empty target and positive duration and rate, and
    stores port 443; in every other successful construction the stored port
    is the given one. *)
Theorem C9_https_default_port :
  forall (t : string) (p : Z) (proto : string) (d r : Z),
    (t <> ""%string -> PyStr.upper proto = "HTTPS"%string -> 0 < d -> 0 < r ->
     exists c, Config.construct t 80 proto d r = Ok c /\ Config.port c = 443)
    /\ (forall c, Config.construct t p proto d r = Ok c ->
        p <> 80 \/ PyStr.upper proto <> "HTTPS"%string ->
        Config.port c = p).
Proof.
  intros t p proto d r. split.
  - intros Ht Hproto Hd Hr.
    assert (Hdp : Config.default_port 80 proto = 443).
    { unfold Config.default_port. rewrite Hproto. reflexivity. }
    eexists. split.
    + apply construct_valid; try assumption.
      * rewrite Hproto. simpl. right. left. reflexivity.
      * rewrite Hdp. lia.
    + cbn [Config.port]. exact Hdp.
  - intros c Hc Hother. apply construct_ok_inv in Hc. destruct Hc as [-> _].
    cbn [Config.port]. unfold Config.default_port.
    destruct (Z.eqb_spec p 80) as [Hp | Hp]; cbn [andb]; [| reflexivity].
    destruct (String.eqb_spec (PyStr.upper proto) "HTTPS") as [Hs | Hs]; [| reflexivity].
    destruct Hother; contradiction.
Qed.

Lemma C9_https_default_port_witness :
  (exists c, Config.construct "example.com" 80 "https" 60 100 = Ok c /\ Config.port c = 443)
  /\ (forall c, Config.construct "example.com" 80 "http" 60 100 = Ok c -> Config.port c = 80).
Proof.
  split.
  - apply (proj1 (C9_https_default_port "example.com" 80 "https" 60 100)).
    + discriminate.
    + reflexivity.
    + lia.
    + lia.
  - intros c Hc.
    apply (proj2 (C9_https_default_port "example.com" 80 "http" 60 100) c Hc).
    right. discriminate.
Defined.

(** C10.  The prefix test is made on the target after [strip().lower()],
    not on the target given to the constructor.  When the cleaned target
    starts with neither "http://" nor "https://", the stored target is a
    scheme followed by it, for every protocol: "https://" for HTTPS and
    "http://" for all others, TCP and UDP included.  When the cleaned target
    already starts with one of the two, it is stored as it is.  The stored
    target of every configuration therefore starts with a scheme, and it is
    the host that [_send_protocol_request] hands to the TCP and UDP
    probes. *)
Theorem C10_scheme_prefix_for_all_protocols :
  forall (t : string) (p : Z) (proto : string) (d r : Z) (c : Config.TestConfig),
    Config.construct t p proto d r = Ok c ->
    (PyStr.startswith_any (Config.clean_target t) Config.scheme_prefixes = false ->
     Config.target c = (Config.scheme_of proto ++ Config.clean_target t)%string
     /\ (In (PyStr.upper proto) ["TCP"; "UDP"]%string ->
         Config.target c = ("http://" ++ Config.clean_target t)%string))
    /\ (PyStr.startswith_any (Config.clean_target t) Config.scheme_prefixes = true ->
        Config.target c = Config.clean_target t)
    /\ PyStr.startswith_any (Config.target c) Config.scheme_prefixes = true
    /\ fst (Core._send_protocol_request_args (Core.new_tester c)) = Config.target c.
Proof.
  intros t p proto d r c Hc. apply construct_ok_inv in Hc. destruct Hc as [-> _].
  cbn [Config.target]. split; [| split; [| split]].
  - intros Hno. unfold Config.add_prefix. rewrite Hno. cbn [negb].
    split; [reflexivity |].
    intros Hraw. unfold Config.scheme_of.
    destruct (String.eqb_spec (PyStr.upper proto) "HTTPS") as [Hs | Hs]; [| reflexivity].
    rewrite Hs in Hraw. cbn in Hraw.
    destruct Hraw as [Hraw | [Hraw | []]]; discriminate.
  - intros Hyes. unfold Config.add_prefix. rewrite Hyes. reflexivity.
  - apply add_prefix_scheme.
  - reflexivity.
Qed.

Lemma C10_scheme_prefix_for_all_protocols_witness :
  Config.target (Config.mkTestConfig "http://10.0.0.1" 9000 "tcp" 5 1)
  = ("http://" ++ Config.clean_target "10.0.0.1")%string
  /\ Config.target (Config.mkTestConfig "https://10.0.0.1" 9000 "udp" 5 1)
     = Config.clean_target " HTTPS://10.0.0.1 ".
Proof.
  split.
  - refine (proj2 (proj1 (C10_scheme_prefix_for_all_protocols
              "10.0.0.1" 9000 "tcp" 5 1
              (Config.mkTestConfig "http://10.0.0.1" 9000 "tcp" 5 1) _) _) _).
    + reflexivity.
    + reflexivity.
    + simpl. left. reflexivity.
  - refine (proj1 (proj2 (C10_scheme_prefix_for_all_protocols
              " HTTPS://10.0.0.1 " 9000 "udp" 5 1
              (Config.mkTestConfig "https://10.0.0.1" 9000 "udp" 5 1) _)) _).
    + reflexivity.
    + reflexivity.
Defined.

(** C10, as stated, fails: a target that does not itself start with
    "http://" or "https://" can start with one of them after
    [strip().lower()].  With a leading blank or an upper-case scheme the
    constructor prepends nothing, and the stored target of a TCP or UDP
    configuration starts with "https://", not with "http://". *)
Lemma C10_counterexample :
  Forall (fun input : string * string =>
            let (t, proto) := input in
            PyStr.startswith_any t Config.scheme_prefixes = false
            /\ In (PyStr.upper proto) ["TCP"; "UDP"]%string
            /\ exists c,
                 Config.construct t 9000 proto 5 1 = Ok c
                 /\ Config.target c = "https://10.0.0.1"%string
                 /\ Config.target c = Config.clean_target t
                 /\ PyStr.startswith (Config.target c) "http://" = false
                 /\ fst (Core._send_protocol_request_args (Core.new_tester c))
                    = "https://10.0.0.1"%string)
         [ (" https://10.0.0.1", "tcp"); ("HTTPS://10.0.0.1", "udp") ]%string.
Proof.
  repeat constructor; try (now left); try (right; now left);
    (eexists; split; [reflexivity |]; repeat split).
Qed.

(** ** Rate control of [LoadTester.generate_load] *)

Section RateFacts.

Import Core.

Lemma Qltb_true (a b : Q) : Qltb a b = true <-> (a < b)%Q.
Proof.
  unfold Qltb. rewrite negb_true_iff. split.
  - intros H. apply Qnot_le_lt. intros Hle.
    apply Qle_bool_iff in Hle. congruence.
  - intros H. destruct (Qle_bool b a) eqn:E; [| reflexivity].
    apply Qle_bool_iff in E. exfalso. apply (Qlt_not_le _ _ H E).
Qed.

Lemma Qltb_false (a b : Q) : Qltb a b = false <-> (b <= a)%Q.
Proof.
  unfold Qltb. rewrite negb_false_iff. apply Qle_bool_iff.
Qed.

Lemma py_max_lower (a b : Q) : (a <= py_max a b)%Q.
Proof.
  unfold py_max. destruct (Qltb a b) eqn:E.
  - apply Qltb_true in E. now apply Qlt_le_weak.
  - apply Qle_refl.
Qed.

Lemma reachable_bounds (s : RateState) :
  reachable s -> 0 <= consecutive_429s s <= 5 /\ (1 <= rate_limit_delay s)%Q.
Proof.
  induction 1 as [| limited s _ [Hc Hd]].
  - cbn. split; [lia | apply Qle_refl].
  - unfold backoff. destruct (0 <? limited); cbn [consecutive_429s rate_limit_delay].
    + split; [lia | lra].
    + split; [lia | apply py_max_lower].
Qed.

Lemma pow2_pos (c : Z) : 0 <= c -> 0 < 2 ^ c.
Proof. intros. apply Z.pow_pos_nonneg; lia. Qed.

Lemma adjusted_rate_le (rate : Z) (s : RateState) :
  0 < rate -> 0 <= consecutive_429s s -> adjusted_rate rate s <= rate.
Proof.
  intros Hr Hc. unfold adjusted_rate.
  pose proof (pow2_pos _ Hc) as Hp.
  assert (rate / 2 ^ consecutive_429s s <= rate).
  { apply Z.div_le_upper_bound; [assumption | nia]. }
  lia.
Qed.

Lemma adjusted_rate_antitone (rate : Z) (s s' : RateState) :
  0 < rate -> 0 <= consecutive_429s s' <= consecutive_429s s ->
  adjusted_rate rate s <= adjusted_rate rate s'.
Proof.
  intros Hr [Hc0 Hc]. unfold adjusted_rate.
  assert (rate / 2 ^ consecutive_429s s <= rate / 2 ^ consecutive_429s s').
  { apply Z.div_le_compat_l; [lia |]. split; [now apply pow2_pos |].
    apply Z.pow_le_mono_r; lia. }
  lia.
Qed.

Lemma adjusted_rate_succ (rate c : Z) (d d' : Q) :
  0 < rate -> 0 <= c ->
  adjusted_rate rate (mkRateState (c + 1) d')
  = Z.max 1 (adjusted_rate rate (mkRateState c d) / 2).
Proof.
  intros Hr Hc. unfold adjusted_rate. cbn [consecutive_429s].
  pose proof (pow2_pos _ Hc) as Hp.
  replace (2 ^ (c + 1)) with (2 ^ c * 2) by (rewrite Z.pow_add_r; lia).
  rewrite <- Z.div_div by lia.
  assert (H0 : 0 <= rate / 2 ^ c) by (apply Z.div_pos; lia).
  destruct (Z.eq_dec (rate / 2 ^ c) 0) as [E | E].
  - rewrite E. reflexivity.
  - replace (Z.max 1 (rate / 2 ^ c)) with (rate / 2 ^ c) by lia. reflexivity.
Qed.

Lemma limited_run_reachable (n : nat) : reachable (limited_run n).
Proof.
  induction n as [| n IH]; [apply reach_init |].
  unfold limited_run. cbn [Nat.iter]. apply reach_step. exact IH.
Qed.

Lemma limited_run_delay (n : nat) :
  (1 + inject_Z (Z.of_nat n) * (1 # 2) <= rate_limit_delay (limited_run n))%Q.
Proof.
  induction n as [| n IH].
  - vm_compute. discriminate.
  - pose proof (reachable_bounds _ (limited_run_reachable n)) as [_ Hd].
    change (limited_run (S n)) with (backoff 1 (limited_run n)).
    change (rate_limit_delay (backoff 1 (limited_run n)))
      with (rate_limit_delay (limited_run n) * (3 # 2))%Q.
    rewrite Nat2Z.inj_succ. unfold Z.succ. rewrite inject_Z_plus.
    change (inject_Z 1) with 1%Q. lra.
Qed.

Lemma delay_has_no_cap (cap : Q) :
  exists n, (cap < rate_limit_delay (limited_run n))%Q.
Proof.
  set (m := Z.max 0 (Qfloor cap + 1)).
  exists (Z.to_nat (2 * m)).
  pose proof (limited_run_delay (Z.to_nat (2 * m))) as H.
  rewrite Z2Nat.id in H by lia.
  rewrite inject_Z_mult in H. change (inject_Z 2) with 2%Q in H.
  pose proof (Qlt_floor cap) as Hf.
  assert (Hm : (inject_Z (Qfloor cap + 1) <= inject_Z m)%Q).
  { rewrite <- Zle_Qle. lia. }
  lra.
Qed.

End RateFacts.

Section LoopFacts.

Import Core.

Lemma gather_length (n : nat) (probes : nat -> ProbeIO) (i : nat) (t : LoadTester) :
  List.length (fst (gather n probes i t)) = n.
Proof.
  revert i t. induction n as [| n IH]; intros i t; [reflexivity |].
  cbn [gather]. destruct (_send_http_request (probes i) t) as [r t1].
  specialize (IH (S i) t1). destruct (gather n probes (S i) t1) as [rs t2].
  cbn in *. now rewrite IH.
Qed.

(** One pass of the loop that does not leave it: the batch has
    [adjusted_rate] probes, the rate state moves by [backoff] on the
    number of 429 answers, and the pass ends by sleeping the new delay. *)
Lemma generate_load_loop_pass (tk : Tick) (rest : list Tick) (rs : RateState)
    (t : LoadTester) :
  tk_stopped tk = false ->
  Qle_bool (inject_Z (Config.duration (config t))) (tk_now tk - start_time t) = false ->
  exists results t' tr,
    results = fst (gather (Z.to_nat (adjusted_rate (Config.rate (config t)) rs))
                          (tk_probes tk) 0 t)
    /\ List.length results = Z.to_nat (adjusted_rate (Config.rate (config t)) rs)
    /\ generate_load_loop (tk :: rest) rs t
       = generate_load_loop rest (backoff (rate_limited results) rs) t'
    /\ trace t' = Sleep (rate_limit_delay (backoff (rate_limited results) rs)) :: tr.
Proof.
  intros Hs Hd. cbn [generate_load_loop]. rewrite Hs, Hd.
  pose proof (gather_length (Z.to_nat (adjusted_rate (Config.rate (config t)) rs))
                (tk_probes tk) 0 t) as Hlen.
  destruct (gather (Z.to_nat (adjusted_rate (Config.rate (config t)) rs))
              (tk_probes tk) 0 t) as [results t1].
  cbn [fst] in Hlen.
  eexists results, _, _. split; [reflexivity |]. split; [exact Hlen |].
  split; reflexivity.
Qed.

Lemma generate_load_loop_reachable (script : list Tick) (rs rs' : RateState)
    (t t' : LoadTester) :
  reachable rs -> generate_load_loop script rs t = Some (rs', t') -> reachable rs'.
Proof.
  revert rs t. induction script as [| tk rest IH]; intros rs t Hr; [discriminate |].
  cbn [generate_load_loop].
  destruct (tk_stopped tk); [intros H; injection H as <- _; exact Hr |].
  destruct (Qle_bool _ _); [intros H; injection H as <- _; exact Hr |].
  destruct (gather _ _ _ _) as [results t1].
  apply IH. now apply reach_step.
Qed.

End LoopFacts.

(** C2 (amended).  For a validated rate (positive) and every rate state the
    loop can reach: the counter stays in 0..5 and the batch size
    [adjusted_rate] stays between [max 1 (rate // 32)] and [rate].  After a
    batch with a 429 answer the counter is [min (c + 1) 5] and the next batch
    size is [max 1 (previous // 2)], the integer half and at least one
    probe, while the counter was below 5, and the previous size once it is
    5.  After a clean batch the counter is [max 0 (c - 1)] and the next batch
    size is not smaller than the previous one and not larger than [rate]. *)
Theorem C2_backoff_rate :
  forall (rate : Z) (s : Core.RateState) (limited : Z),
    0 < rate -> Core.reachable s ->
    0 <= Core.consecutive_429s s <= 5
    /\ Z.max 1 (rate / 32) <= Core.adjusted_rate rate s <= rate
    /\ (0 < limited ->
        Core.consecutive_429s (Core.backoff limited s)
        = Z.min (Core.consecutive_429s s + 1) 5
        /\ Core.adjusted_rate rate (Core.backoff limited s)
           = if Core.consecutive_429s s <? 5
             then Z.max 1 (Core.adjusted_rate rate s / 2)
             else Core.adjusted_rate rate s)
    /\ (limited = 0 ->
        Core.consecutive_429s (Core.backoff limited s)
        = Z.max 0 (Core.consecutive_429s s - 1)
        /\ Core.adjusted_rate rate s
           <= Core.adjusted_rate rate (Core.backoff limited s) <= rate).
Proof.
  intros rate s limited Hrate Hreach.
  destruct (reachable_bounds s Hreach) as [Hc _].
  split; [exact Hc |]. split; [| split].
  - split; [| apply adjusted_rate_le; lia].
    change 32 with (2 ^ 5).
    apply (adjusted_rate_antitone rate (Core.mkRateState 5 0) s Hrate).
    cbn [Core.consecutive_429s]. lia.
  - intros Hl. unfold Core.backoff.
    destruct (Z.ltb_spec 0 limited) as [_ | Hn]; [| lia].
    cbn [Core.consecutive_429s]. split; [reflexivity |].
    destruct s as [c d]. cbn [Core.consecutive_429s Core.rate_limit_delay] in *.
    destruct (Z.ltb_spec c 5) as [Hlt | Hge].
    + replace (Z.min (c + 1) 5) with (c + 1) by lia.
      apply adjusted_rate_succ; lia.
    + replace (Z.min (c + 1) 5) with c by lia. reflexivity.
  - intros ->. unfold Core.backoff. cbn [Z.ltb Z.compare Core.consecutive_429s].
    split; [reflexivity |]. split.
    + apply adjusted_rate_antitone; [assumption |]. cbn [Core.consecutive_429s]. lia.
    + apply adjusted_rate_le; [assumption |]. cbn [Core.consecutive_429s]. lia.
Qed.

Lemma C2_backoff_rate_witness :
  Core.adjusted_rate 10 (Core.backoff 3 Core.rate_init)
  = if Core.consecutive_429s Core.rate_init <? 5
    then Z.max 1 (Core.adjusted_rate 10 Core.rate_init / 2)
    else Core.adjusted_rate 10 Core.rate_init.
Proof.
  refine (proj2 (proj1 (proj2 (proj2 (C2_backoff_rate 10 Core.rate_init 3 _ _))) _)).
  - lia.
  - apply Core.reach_init.
  - lia.
Defined.

(** C2, as stated, fails: with rate 5 a batch with 429 answers takes the
    batch size from 5 to 2, and with rate 1 it leaves it at 1; neither is
    half of the previous size. *)
Lemma C2_counterexample :
  Core.adjusted_rate 5 Core.rate_init = 5
  /\ Core.adjusted_rate 5 (Core.backoff 3 Core.rate_init) = 2
  /\ ~ SpecRate.halved (Core.adjusted_rate 5 Core.rate_init)
         (Core.adjusted_rate 5 (Core.backoff 3 Core.rate_init))
  /\ Core.adjusted_rate 1 (Core.backoff 1 Core.rate_init) = 1
  /\ ~ SpecRate.halved (Core.adjusted_rate 1 Core.rate_init)
         (Core.adjusted_rate 1 (Core.backoff 1 Core.rate_init)).
Proof.
  repeat split; try reflexivity; unfold SpecRate.halved; vm_compute; discriminate.
Qed.

(** C3 (amended).  The delay starts at 1.0 and is at least 1.0 in every
    state the loop can reach.  A batch with a 429 answer multiplies it by
    1.5, without any cap.  A clean batch multiplies it by 0.8 when the
    product is above 1.0 and sets it to 1.0 otherwise. *)
Theorem C3_sleep_interval :
  forall (s : Core.RateState) (limited : Z),
    Core.reachable s ->
    Core.rate_limit_delay Core.rate_init = 1%Q
    /\ (1 <= Core.rate_limit_delay s)%Q
    /\ (0 < limited ->
        Core.rate_limit_delay (Core.backoff limited s)
        = (Core.rate_limit_delay s * (3 # 2))%Q)
    /\ (limited = 0 ->
        (1 <= Core.rate_limit_delay (Core.backoff limited s))%Q
        /\ ((1 < Core.rate_limit_delay s * (4 # 5))%Q ->
            Core.rate_limit_delay (Core.backoff limited s)
            = (Core.rate_limit_delay s * (4 # 5))%Q)
        /\ ((Core.rate_limit_delay s * (4 # 5) <= 1)%Q ->
            Core.rate_limit_delay (Core.backoff limited s) = 1%Q)).
Proof.
  intros s limited Hreach.
  destruct (reachable_bounds s Hreach) as [_ Hd].
  split; [reflexivity |]. split; [exact Hd |]. split.
  - intros Hl. unfold Core.backoff.
    destruct (Z.ltb_spec 0 limited) as [_ | Hn]; [reflexivity | lia].
  - intros ->. unfold Core.backoff. cbn [Z.ltb Z.compare Core.rate_limit_delay].
    split; [apply py_max_lower |]. unfold py_max. split.
    + intros Hlt. apply Qltb_true in Hlt. now rewrite Hlt.
    + intros Hle. apply Qltb_false in Hle. now rewrite Hle.
Qed.

Lemma C3_sleep_interval_witness :
  Core.rate_limit_delay (Core.backoff 2 Core.rate_init)
  = (Core.rate_limit_delay Core.rate_init * (3 # 2))%Q.
Proof.
  refine (proj1 (proj2 (proj2 (C3_sleep_interval Core.rate_init 2 _))) _).
  - apply Core.reach_init.
  - lia.
Defined.

(** ** Probes and counters *)

Section CoreProbeFacts.

Import Core.

Lemma notify_stats now rt status div (t : LoadTester) :
  stats (notify now rt status div t) = stats t.
Proof.
  unfold notify. destruct (callback t) as [cb |]; [| reflexivity].
  destruct (requests_sent (stats t) =? 0); [reflexivity |].
  destruct (Qeq_bool _ _); [reflexivity |].
  destruct (cb _ _); reflexivity.
Qed.

(** The callback adds events to the trace and removes none. *)
Lemma notify_trace now rt status div (t : LoadTester) :
  exists evs, trace (notify now rt status div t) = evs ++ trace t.
Proof.
  unfold notify. destruct (callback t) as [cb |]; [| now exists []].
  destruct (requests_sent (stats t) =? 0); [now eexists [_] |].
  destruct (Qeq_bool _ _); [now eexists [_] |].
  destruct (cb _ _); [now eexists [_] | now eexists [_; _]].
Qed.

Lemma errors_count_app (evs tr : list Event) :
  errors_count tr <= errors_count (evs ++ tr).
Proof.
  induction evs as [| e evs IH]; [cbn; lia |].
  destruct e; cbn [app errors_count]; lia.
Qed.

Lemma send_http_request_counters (io : ProbeIO) (t : LoadTester) :
  let t' := snd (_send_http_request io t) in
  requests_sent (stats t') = requests_sent (stats t) + 1
  /\ (success_count (stats t') = success_count (stats t)
      \/ success_count (stats t') = success_count (stats t) + 1)
  /\ errors_count (trace t) <= errors_count (trace t').
Proof.
  unfold _send_http_request.
  destruct (io_exchange io) as [status th tb | err tf]; cbn [snd].
  - rewrite notify_stats. cbn [stats with_stats requests_sent success_count emit].
    split; [reflexivity |]. split.
    + destruct (status <? 400); [right | left]; reflexivity.
    + destruct (notify_trace (io_now io) (th + tb) status (requests_sent (stats t) + 1)
        (with_stats
           {| requests_sent := requests_sent (stats t) + 1;
              success_count :=
                if status <? 400 then success_count (stats t) + 1
                else success_count (stats t);
              total_response_time := total_response_time (stats t) + (th + tb) |}
           (emit (LogRequest status (th + tb)) t))) as [evs ->].
      cbn [trace with_stats emit].
      eapply Z.le_trans; [| apply errors_count_app]. cbn [errors_count]. lia.
  - rewrite notify_stats. cbn [stats with_stats requests_sent success_count emit].
    split; [reflexivity |]. split; [left; reflexivity |].
    destruct (notify_trace (io_now io) tf 0 (Z.max 1 (requests_sent (stats t) + 1))
        (with_stats
           {| requests_sent := requests_sent (stats t) + 1;
              success_count := success_count (stats t);
              total_response_time := total_response_time (stats t) |}
           (emit (LogError (RequestError err)) t))) as [evs ->].
    cbn [trace with_stats emit].
    eapply Z.le_trans; [| apply errors_count_app]. cbn [errors_count]. lia.
Qed.

Lemma core_visits_counters (t t' : LoadTester) :
  visits t t' ->
  requests_sent (stats t) <= requests_sent (stats t')
  /\ success_count (stats t) <= success_count (stats t')
  /\ errors_count (trace t) <= errors_count (trace t')
  /\ (success_count (stats t) <= requests_sent (stats t) ->
      success_count (stats t') <= requests_sent (stats t')).
Proof.
  induction 1 as [| io t' _ IH | e t' _ IH | b t' _ IH | q t' _ IH | cb t' _ IH];
    try (cbn [stats trace emit with_running with_start_time set_callback]; 
         first [ destruct e; cbn [errors_count]; lia | lia ]).
  pose proof (send_http_request_counters io t') as H. cbn zeta in H. lia.
Qed.

Lemma gather_visits (n : nat) (probes : nat -> ProbeIO) (i : nat) (t : LoadTester) :
  visits t (snd (gather n probes i t)).
Proof.
  assert (G : forall t0 n i t, visits t0 t -> visits t0 (snd (gather n probes i t))).
  { clear. intros t0 n. induction n as [| n IH]; intros i t Hv; [exact Hv |].
    cbn [gather].
    pose proof (visit_probe t0 (probes i) t Hv) as Hp.
    destruct (_send_http_request (probes i) t) as [r t1]. cbn [snd] in Hp.
    specialize (IH (S i) t1 Hp).
    destruct (gather n probes (S i) t1) as [rs t2]. exact IH. }
  apply G. apply visit_refl.
Qed.

End CoreProbeFacts.

Section CoreRunFacts.

Import Core.

Lemma visits_trans (t1 t2 t3 : LoadTester) :
  visits t1 t2 -> visits t2 t3 -> visits t1 t3.
Proof.
  intros H12 H23. induction H23; [assumption | | | | |];
    constructor; assumption.
Qed.

Lemma generate_load_loop_visits (script : list Tick) (rs rs' : RateState)
    (t t' : LoadTester) :
  generate_load_loop script rs t = Some (rs', t') -> visits t t'.
Proof.
  assert (G : forall t0 script rs t,
             visits t0 t -> generate_load_loop script rs t = Some (rs', t') ->
             visits t0 t').
  { clear. intros t0 script.
    induction script as [| tk rest IH]; intros rs t Hv; [discriminate |].
    cbn [generate_load_loop].
    destruct (tk_stopped tk).
    { intros H. injection H as _ <-. now apply visit_running. }
    destruct (Qle_bool _ _).
    { intros H. injection H as _ <-. exact Hv. }
    pose proof (gather_visits (Z.to_nat (adjusted_rate (Config.rate (config t)) rs))
                  (tk_probes tk) 0 t) as Hg.
    destruct (gather _ _ _ _) as [results t1]. cbn [snd] in Hg.
    apply IH. apply visit_emit. apply visit_emit.
    destruct (0 <? rate_limited results).
    - apply visit_emit. apply visit_emit. eapply visits_trans; eassumption.
    - eapply visits_trans; eassumption. }
  apply G. apply visit_refl.
Qed.

Lemma generate_load_visits session_error now0 script rs (t t' : LoadTester) :
  generate_load session_error now0 script t = Some (rs, t') -> visits t t'.
Proof.
  unfold generate_load. destruct session_error as [e |].
  - intros H. injection H as _ <-. apply visit_running, visit_emit, visit_refl.
  - destruct (generate_load_loop _ _ _) as [[rs1 t1] |] eqn:E; [| discriminate].
    intros H. injection H as _ <-. apply visit_running.
    apply generate_load_loop_visits in E.
    eapply visits_trans; [| exact E].
    apply visit_start_time, visit_running, visit_refl.
Qed.

Lemma run_visits session_error now_run now0 script (t t' : LoadTester) :
  run session_error now_run now0 script t = Some t' -> visits t t'.
Proof.
  unfold run.
  destruct (generate_load _ _ _ _) as [[rs t1] |] eqn:E; [| discriminate].
  intros H. injection H as <-. apply visit_emit.
  apply generate_load_visits in E.
  eapply visits_trans; [| exact E].
  apply visit_emit, visit_start_time, visit_running, visit_refl.
Qed.

End CoreRunFacts.

Section RealProbeFacts.

Import RealTest.

Lemma send_request_counters (io : ProbeIO) (t : RealLoadTest) :
  let t' := snd (_send_request io t) in
  match io_exchange io with
  | Responded status _ _ =>
      requests_sent (stats t') = requests_sent (stats t) + 1
      /\ success_count (stats t')
         = (if status <? 400 then success_count (stats t) + 1 else success_count (stats t))
      /\ error_count (stats t') = error_count (stats t)
  | Failed _ _ =>
      requests_sent (stats t') = requests_sent (stats t)
      /\ success_count (stats t') = success_count (stats t)
      /\ error_count (stats t') = error_count (stats t) + 1
  end.
Proof.
  unfold _send_request.
  destruct (io_exchange io) as [status th tb | err tf]; cbn; repeat split; reflexivity.
Qed.

Lemma real_visits_counters (t t' : RealLoadTest) :
  visits t t' ->
  requests_sent (stats t) <= requests_sent (stats t')
  /\ success_count (stats t) <= success_count (stats t')
  /\ error_count (stats t) <= error_count (stats t')
  /\ (success_count (stats t) <= requests_sent (stats t) ->
      success_count (stats t') <= requests_sent (stats t')).
Proof.
  induction 1 as [| io t' _ IH | e t' _ IH | r d t' _ IH | n t' _ IH
                  | e r t' _ IH | p t' _ IH | q t' _ IH | cb t' _ IH];
    try (cbn; lia).
  pose proof (send_request_counters io t') as H. cbn zeta in H.
  destruct (io_exchange io) as [status th tb | err tf].
  - destruct (status <? 400); lia.
  - lia.
Qed.

Lemma real_visits_trans (t1 t2 t3 : RealLoadTest) :
  visits t1 t2 -> visits t2 t3 -> visits t1 t3.
Proof.
  intros H12 H23. induction H23; [assumption | | | | | | | |];
    constructor; assumption.
Qed.

Lemma real_gather_length (n : nat) (probes : nat -> ProbeIO) (i : nat)
    (t : RealLoadTest) :
  List.length (fst (gather n probes i t)) = n.
Proof.
  revert i t. induction n as [| n IH]; intros i t; [reflexivity |].
  cbn [gather]. destruct (_send_request (probes i) t) as [r t1].
  specialize (IH (S i) t1). destruct (gather n probes (S i) t1) as [rs t2].
  cbn in *. now rewrite IH.
Qed.

Lemma real_gather_visits (t0 : RealLoadTest) (n : nat) (probes : nat -> ProbeIO)
    (i : nat) (t : RealLoadTest) :
  visits t0 t -> visits t0 (snd (gather n probes i t)).
Proof.
  revert i t. induction n as [| n IH]; intros i t Hv; [exact Hv |].
  cbn [gather].
  pose proof (visit_probe t0 (probes i) t Hv) as Hp.
  destruct (_send_request (probes i) t) as [r t1]. cbn [snd] in Hp.
  specialize (IH (S i) t1 Hp).
  destruct (gather n probes (S i) t1) as [rs t2]. exact IH.
Qed.

Lemma real_generate_load_visits (t0 : RealLoadTest) (tk : Tick) (t : RealLoadTest) :
  visits t0 t -> visits t0 (snd (generate_load tk t)).
Proof.
  intros Hv. unfold generate_load.
  set (n := requests_needed _ t).
  pose proof (real_gather_visits t0 (Z.to_nat n) (tk_probes tk) 0
                (with_stats (set_current_users n (stats t)) t)
                (visit_users t0 n t Hv)) as Hg.
  destruct (gather _ _ _ _) as [results t2]. cbn [snd] in Hg.
  destruct (ramp_up_time t2 =? 0); cbn [snd]; [now apply visit_emit |].
  destruct (Qltb _ _); cbn [snd].
  - apply visit_emit. now apply visit_update.
  - now apply visit_update.
Qed.

Lemma start_loop_visits (t0 : RealLoadTest) (script : list Tick) (t t' : RealLoadTest)
    (exn : option string) :
  visits t0 t -> start_loop script t = Some (exn, t') -> visits t0 t'.
Proof.
  revert t. induction script as [| tk rest IH]; intros t Hv; [discriminate |].
  cbn [start_loop].
  destruct (tk_stopped tk).
  { intros H. injection H as _ <-. now apply visit_flags. }
  destruct (test_completed t).
  { intros H. injection H as _ <-. exact Hv. }
  destruct (Qle_bool _ _).
  { intros H. injection H as _ <-. now apply visit_flags. }
  destruct (tk_paused tk).
  { apply IH. now apply visit_emit. }
  pose proof (real_generate_load_visits t0 tk t Hv) as Hg.
  destruct (generate_load tk t) as [results t1]. cbn [snd] in Hg.
  destruct (callback t1) as [cb |].
  - destruct (cb _ _).
    + apply IH. now apply visit_emit, visit_emit.
    + intros H. injection H as _ <-. now apply visit_emit.
  - apply IH. now apply visit_emit.
Qed.

Lemma start_visits session_error now0 script (t t' : RealLoadTest) (o : Outcome) :
  start session_error now0 script t = Some (o, t') -> visits t t'.
Proof.
  unfold start.
  destruct (start_try session_error now0 script t) as [t1 |] eqn:E; [| discriminate].
  intros H. injection H as H.
  assert (Hv1 : visits t t1).
  { unfold start_try in E.
    assert (H0 : visits t (with_stats (set_start_time now0 (stats (with_flags true false t)))
                             (with_flags true false t))).
    { apply visit_start_time, visit_flags, visit_refl. }
    destruct session_error as [e |].
    - injection E as <-. now apply visit_emit.
    - destruct (start_loop _ _) as [[[e |] t2] |] eqn:EL; [| | discriminate].
      + injection E as <-. apply visit_emit. eapply start_loop_visits; eassumption.
      + injection E as <-. eapply start_loop_visits; eassumption. }
  unfold start_finally in H.
  destruct (callback (with_flags false true t1)) as [cb |].
  - injection H as _ <-. apply visit_emit.
    apply (visit_progress t 100 (with_flags false true t1)).
    now apply visit_flags.
  - injection H as _ <-. now apply visit_flags.
Qed.

End RealProbeFacts.

(** C4.  Along every run of [LoadTester] and of [RealLoadTest] the counters
    [requests_sent], [success_count] and the error counter
    ([TestLogger.errors_count] for [LoadTester], [error_count] for
    [RealLoadTest]) never decrease from a state to a later one, and
    [success_count <= requests_sent] holds in every state that follows the
    construction of the object, in particular after every probe has recorded
    its outcome.  [run_visits] and [start_visits] show that the runs move
    through [visits]. *)
Theorem C4_counters_monotone :
  (forall t t' : Core.LoadTester,
      Core.visits t t' ->
      Core.requests_sent (Core.stats t) <= Core.requests_sent (Core.stats t')
      /\ Core.success_count (Core.stats t) <= Core.success_count (Core.stats t')
      /\ Core.errors_count (Core.trace t) <= Core.errors_count (Core.trace t'))
  /\ (forall (cfg : Config.TestConfig) (t : Core.LoadTester),
         Core.visits (Core.new_tester cfg) t ->
         Core.success_count (Core.stats t) <= Core.requests_sent (Core.stats t))
  /\ (forall t t' : RealTest.RealLoadTest,
         RealTest.visits t t' ->
         RealTest.requests_sent (RealTest.stats t) <= RealTest.requests_sent (RealTest.stats t')
         /\ RealTest.success_count (RealTest.stats t)
            <= RealTest.success_count (RealTest.stats t')
         /\ RealTest.error_count (RealTest.stats t) <= RealTest.error_count (RealTest.stats t'))
  /\ (forall (tgt : string) (users ramp : Z) (t : RealTest.RealLoadTest),
         RealTest.visits (RealTest.new_test tgt users ramp) t ->
         RealTest.success_count (RealTest.stats t) <= RealTest.requests_sent (RealTest.stats t)).
Proof.
  split; [| split; [| split]].
  - intros t t' Hv. destruct (core_visits_counters t t' Hv) as (H1 & H2 & H3 & _).
    repeat split; assumption.
  - intros cfg t Hv. destruct (core_visits_counters _ t Hv) as (_ & _ & _ & H).
    apply H. cbn. lia.
  - intros t t' Hv. destruct (real_visits_counters t t' Hv) as (H1 & H2 & H3 & _).
    repeat split; assumption.
  - intros tgt users ramp t Hv. destruct (real_visits_counters _ t Hv) as (_ & _ & _ & H).
    apply H. cbn. lia.
Qed.

Lemma C4_counters_monotone_witness :
  let io := mkProbeIO (Responded 503 (1 # 10) (1 # 5)) 2 in
  let t0 := Core.new_tester (Config.mkTestConfig "http://example.com" 80 "http" 60 10) in
  let r0 := RealTest.new_test "example.com" 10 60 in
  Core.success_count (Core.stats (snd (Core._send_http_request io t0)))
  <= Core.requests_sent (Core.stats (snd (Core._send_http_request io t0)))
  /\ RealTest.success_count (RealTest.stats (snd (RealTest._send_request io r0)))
     <= RealTest.requests_sent (RealTest.stats (snd (RealTest._send_request io r0))).
Proof.
  intros io t0 r0. split.
  - apply (proj1 (proj2 C4_counters_monotone)
             (Config.mkTestConfig "http://example.com" 80 "http" 60 10)).
    apply Core.visit_probe. apply Core.visit_refl.
  - apply (proj2 (proj2 (proj2 C4_counters_monotone)) "example.com"%string 10 60).
    apply RealTest.visit_probe. apply RealTest.visit_refl.
Defined.

(** [RealLoadTest._send_request] differs from the probe of [LoadTester]:
    its response time stops at the response head, and a failed exchange is
    counted in [error_count] only. *)
Lemma real_send_request_outcome :
  forall (io : ProbeIO) (t : RealTest.RealLoadTest),
    match io_exchange io with
    | Responded status t_headers _ =>
        fst (RealTest._send_request io t) = (Some status, t_headers)
    | Failed _ t_fail =>
        fst (RealTest._send_request io t) = (None, t_fail)
        /\ RealTest.requests_sent (RealTest.stats (snd (RealTest._send_request io t)))
           = RealTest.requests_sent (RealTest.stats t)
    end.
Proof.
  intros io t. unfold RealTest._send_request.
  destruct (io_exchange io); [reflexivity | split; reflexivity].
Qed.

(** C6.  [LoadTester._send_http_request] always returns.  When the exchange
    delivers a response, the time it returns and logs is the time to the
    response head plus the time [response.read()] took to drain the body;
    [requests_sent] grows by one, and [success_count] grows by one exactly
    when the status is below 400.  When the transport raises, the probe
    returns [(None, elapsed)], logs the error text with [log_error], and
    [requests_sent] still grows by one while [success_count] is unchanged. *)
Theorem C6_http_probe_outcome :
  forall (io : ProbeIO) (t : Core.LoadTester),
    match io_exchange io with
    | Responded status t_headers t_body =>
        fst (Core._send_http_request io t) = (Some status, (t_headers + t_body)%Q)
        /\ In (Core.LogRequest status (t_headers + t_body)%Q)
              (Core.trace (snd (Core._send_http_request io t)))
        /\ Core.requests_sent (Core.stats (snd (Core._send_http_request io t)))
           = Core.requests_sent (Core.stats t) + 1
        /\ Core.success_count (Core.stats (snd (Core._send_http_request io t)))
           = (if status <? 400 then Core.success_count (Core.stats t) + 1
              else Core.success_count (Core.stats t))
    | Failed err t_fail =>
        fst (Core._send_http_request io t) = (None, t_fail)
        /\ In (Core.LogError (Core.RequestError err))
              (Core.trace (snd (Core._send_http_request io t)))
        /\ Core.requests_sent (Core.stats (snd (Core._send_http_request io t)))
           = Core.requests_sent (Core.stats t) + 1
        /\ Core.success_count (Core.stats (snd (Core._send_http_request io t)))
           = Core.success_count (Core.stats t)
    end.
Proof.
  intros io t. unfold Core._send_http_request.
  destruct (io_exchange io) as [status th tb | err tf]; cbn [fst snd].
  - split; [reflexivity |]. rewrite notify_stats. split; [| split; reflexivity].
    match goal with
    | |- In _ (Core.trace (Core.notify ?a ?b ?c ?d ?u)) =>
        destruct (notify_trace a b c d u) as [evs ->]
    end.
    apply in_or_app. right. left. reflexivity.
  - split; [reflexivity |]. rewrite notify_stats. split; [| split; reflexivity].
    match goal with
    | |- In _ (Core.trace (Core.notify ?a ?b ?c ?d ?u)) =>
        destruct (notify_trace a b c d u) as [evs ->]
    end.
    apply in_or_app. right. left. reflexivity.
Qed.

(** ** Batch size of [RealLoadTest.generate_load] *)

Section BatchFacts.

Import RealTest.

Lemma generate_load_length (tk : Tick) (t : RealLoadTest) :
  List.length (fst (generate_load tk t))
  = Z.to_nat (requests_needed (tk_now_load tk - start_time (stats t)) t).
Proof.
  unfold generate_load.
  set (n := requests_needed _ t).
  pose proof (real_gather_length (Z.to_nat n) (tk_probes tk) 0
                (with_stats (set_current_users n (stats t)) t)) as Hlen.
  destruct (gather _ _ _ _) as [results t2]. cbn [fst] in Hlen.
  destruct (ramp_up_time t2 =? 0); [exact Hlen |].
  destruct (Qltb _ _); exact Hlen.
Qed.

(** On a non-negative float [int] is the floor. *)
Lemma py_int_floor (x : Q) : (0 <= x)%Q -> py_int x = Qfloor x.
Proof.
  destruct x as [n d]. unfold Qle, py_int, Qfloor. cbn [Qnum Qden].
  intros H. apply Z.quot_div_nonneg; lia.
Qed.

End BatchFacts.

(** C1 (amended).  In every tick [RealLoadTest.generate_load] dispatches
    [max(1, min(int(elapsed * target_rate) - requests_sent, target_rate))]
    probes, where [int] is the floor when the product is not negative; there
    is no throttle factor, the effective rate is [target_rate].  The batch
    has at least one probe and at most [max(1, target_rate)]; in particular,
    when [requests_sent] is at or ahead of the schedule, exactly one probe
    is dispatched. *)
Theorem C1_batch_size :
  forall (tk : RealTest.Tick) (t : RealTest.RealLoadTest),
    let elapsed := (RealTest.tk_now_load tk - RealTest.start_time (RealTest.stats t))%Q in
    let scheduled := py_int (elapsed * inject_Z (RealTest.target_rate t))%Q in
    let sent := RealTest.requests_sent (RealTest.stats t) in
    let dispatched := Z.of_nat (List.length (fst (RealTest.generate_load tk t))) in
    dispatched = Z.max 1 (Z.min (scheduled - sent) (RealTest.target_rate t))
    /\ 1 <= dispatched <= Z.max 1 (RealTest.target_rate t)
    /\ (scheduled <= sent -> dispatched = 1)
    /\ ((0 <= elapsed * inject_Z (RealTest.target_rate t))%Q ->
        scheduled = Qfloor (elapsed * inject_Z (RealTest.target_rate t))%Q).
Proof.
  intros tk t elapsed scheduled sent dispatched.
  assert (H : dispatched = Z.max 1 (Z.min (scheduled - sent) (RealTest.target_rate t))).
  { unfold dispatched. rewrite generate_load_length.
    unfold RealTest.requests_needed. fold elapsed. fold scheduled. fold sent.
    rewrite Z2Nat.id by lia. reflexivity. }
  split; [exact H |]. split; [lia |]. split; [lia |].
  intros Hpos. unfold scheduled. now apply py_int_floor.
Qed.

Lemma C1_batch_size_witness :
  let t := RealTest.new_test "example.com" 10 60 in
  let tk := RealTest.mkTick false false 0 0
              (fun _ => mkProbeIO (Responded 200 (1 # 20) (1 # 50)) (1 # 10)) in
  Z.of_nat (List.length (fst (RealTest.generate_load tk t))) = 1.
Proof.
  intros t tk.
  refine (proj1 (proj2 (proj2 (C1_batch_size tk t))) _).
  vm_compute. discriminate.
Defined.

(** C1, as stated, fails: at the start of a run with target rate 10 nothing
    is due ([floor(0 * 10) - 0 = 0], so the controller of the
    specification dispatches no probe), yet [generate_load] dispatches
    one. *)
Lemma C1_counterexample :
  let t := RealTest.new_test "example.com" 10 60 in
  let tk := RealTest.mkTick false false 0 0
              (fun _ => mkProbeIO (Responded 200 (1 # 20) (1 # 50)) (1 # 10)) in
  let elapsed := (RealTest.tk_now_load tk - RealTest.start_time (RealTest.stats t))%Q in
  Qfloor (elapsed * inject_Z (RealTest.target_rate t)) <= RealTest.requests_sent (RealTest.stats t)
  /\ SpecRate.requests_due elapsed (inject_Z (RealTest.target_rate t))
       (RealTest.requests_sent (RealTest.stats t)) (RealTest.target_rate t) = 0
  /\ List.length (fst (RealTest.generate_load tk t)) = 1%nat.
Proof.
  vm_compute. repeat split. discriminate.
Qed.

(** ** The run of [RealLoadTest.start] *)

Section RealRunFacts.

Import RealTest.

Lemma same_run_refl (t : RealLoadTest) : same_run t t.
Proof. repeat split. Qed.

Lemma same_run_trans (t1 t2 t3 : RealLoadTest) :
  same_run t1 t2 -> same_run t2 t3 -> same_run t1 t3.
Proof.
  unfold same_run. intros (A1 & A2 & A3 & A4) (B1 & B2 & B3 & B4).
  repeat split; congruence.
Qed.

Lemma send_request_same_run (io : ProbeIO) (t : RealLoadTest) :
  same_run t (snd (_send_request io t))
  /\ trace (snd (_send_request io t)) = trace t.
Proof.
  unfold _send_request, same_run.
  destruct (io_exchange io) as [status th tb | err tf]; cbn; repeat split.
Qed.

Lemma gather_same_run (n : nat) (probes : nat -> ProbeIO) (i : nat) (t : RealLoadTest) :
  same_run t (snd (gather n probes i t)) /\ trace (snd (gather n probes i t)) = trace t.
Proof.
  revert i t. induction n as [| n IH]; intros i t.
  - split; [apply same_run_refl | reflexivity].
  - cbn [gather].
    destruct (send_request_same_run (probes i) t) as [Hs Ht].
    destruct (_send_request (probes i) t) as [r t1]. cbn [snd] in Hs, Ht.
    destruct (IH (S i) t1) as [Hs' Ht'].
    destruct (gather n probes (S i) t1) as [rs t2]. cbn [snd] in *.
    split; [eapply same_run_trans; eassumption | congruence].
Qed.

Lemma generate_load_same_run (tk : Tick) (t : RealLoadTest) :
  same_run t (snd (generate_load tk t))
  /\ snapshots (trace (snd (generate_load tk t))) = snapshots (trace t).
Proof.
  unfold generate_load.
  set (n := requests_needed _ t).
  destruct (gather_same_run (Z.to_nat n) (tk_probes tk) 0
              (with_stats (set_current_users n (stats t)) t)) as [Hs Ht].
  destruct (gather _ _ _ _) as [results t2]. cbn [snd] in Hs, Ht.
  assert (Hs0 : same_run t t2).
  { eapply same_run_trans; [| exact Hs]. repeat split. }
  cbn [trace with_stats] in Ht.
  destruct (ramp_up_time t2 =? 0); cbn [snd].
  - split; [| cbn; now rewrite Ht].
    eapply same_run_trans; [exact Hs0 | repeat split].
  - destruct (Qltb _ _); cbn [snd].
    + split; [| cbn; now rewrite Ht].
      eapply same_run_trans; [exact Hs0 | repeat split].
    + split; [| cbn; now rewrite Ht].
      eapply same_run_trans; [exact Hs0 | repeat split].
Qed.

Lemma start_loop_same_run (script : list Tick) (t t' : RealLoadTest)
    (exn : option string) :
  start_loop script t = Some (exn, t') ->
  start_time (stats t') = start_time (stats t)
  /\ ramp_up_time t' = ramp_up_time t
  /\ callback t' = callback t
  /\ (callback t = None ->
      exn = None /\ snapshots (trace t') = snapshots (trace t)).
Proof.
  revert t. induction script as [| tk rest IH]; intros t; [discriminate |].
  cbn [start_loop].
  destruct (tk_stopped tk).
  { intros H. injection H as <- <-. repeat split. }
  destruct (test_completed t).
  { intros H. injection H as <- <-. repeat split. }
  destruct (Qle_bool _ _).
  { intros H. injection H as <- <-. repeat split. }
  destruct (tk_paused tk).
  { intros H. apply IH in H. exact H. }
  destruct (generate_load_same_run tk t) as [(G1 & G2 & G3 & G4) Gs].
  destruct (generate_load tk t) as [results t1]. cbn [snd] in *.
  destruct (callback t1) as [cb |] eqn:Ecb.
  - destruct (cb _ _).
    + intros H. apply IH in H. cbn in H. destruct H as (H1 & H2 & H3 & H4).
      repeat split; try congruence.
      all: intros Hnone; congruence.
    + intros H. injection H as <- <-. cbn.
      repeat split; try congruence.
      all: intros Hnone; congruence.
  - intros H. apply IH in H. cbn in H. destruct H as (H1 & H2 & H3 & H4).
    rewrite Ecb in H4. destruct (H4 eq_refl) as [H5 H6].
    repeat split; congruence.
Qed.

(** The loop ends once the script shows a stop or a clock reading at or
    past the ramp-up time. *)
Lemma start_loop_terminates (script : list Tick) (t : RealLoadTest) :
  existsb (ends_loop (ramp_up_time t) (start_time (stats t))) script = true ->
  exists r, start_loop script t = Some r.
Proof.
  revert t. induction script as [| tk rest IH]; intros t; [discriminate |].
  cbn [existsb start_loop]. unfold ends_loop at 1.
  destruct (tk_stopped tk); [intros _; eexists; reflexivity |].
  destruct (test_completed t); [intros _; eexists; reflexivity |].
  destruct (Qle_bool _ _); [intros _; eexists; reflexivity |].
  cbn [orb]. intros Hrest.
  destruct (tk_paused tk); [apply IH; exact Hrest |].
  destruct (generate_load_same_run tk t) as [(G1 & G2 & G3 & G4) _].
  destruct (generate_load tk t) as [results t1]. cbn [snd] in *.
  destruct (callback t1) as [cb |].
  - destruct (cb _ _); [| eexists; reflexivity].
    apply IH. cbn. rewrite G1, G2. exact Hrest.
  - apply IH. cbn. rewrite G1, G2. exact Hrest.
Qed.

Lemma start_try_terminates session_error now0 script (t : RealLoadTest) :
  session_error <> None
  \/ existsb (ends_loop (ramp_up_time t) now0) script = true ->
  exists t1, start_try session_error now0 script t = Some t1
             /\ callback t1 = callback t
             /\ (callback t = None -> snapshots (trace t1) = snapshots (trace t)).
Proof.
  intros Hend. unfold start_try.
  destruct session_error as [e |].
  - eexists. split; [reflexivity |]. split; reflexivity.
  - destruct Hend as [Hne | Hend]; [congruence |].
    destruct (start_loop_terminates script
                (with_stats (set_start_time now0 (stats t)) (with_flags true false t))
                Hend) as [[exn t1] Hloop].
    rewrite Hloop.
    apply start_loop_same_run in Hloop. cbn in Hloop.
    destruct Hloop as (_ & _ & Hcb & Hnone).
    destruct exn as [e |]; eexists; (split; [reflexivity |]); (split; [exact Hcb |]).
    + intros Hn. destruct (Hnone Hn) as [Hx _]. discriminate.
    + intros Hn. destruct (Hnone Hn) as [_ Hx]. exact Hx.
Qed.

End RealRunFacts.

(** ** The run of [LoadTester.run] *)

Section CoreTermination.

Import Core.

Lemma core_same_run_trans (t1 t2 t3 : LoadTester) :
  same_run t1 t2 -> same_run t2 t3 -> same_run t1 t3.
Proof.
  unfold same_run. intros (A1 & A2 & A3) (B1 & B2 & B3). repeat split; congruence.
Qed.

Lemma notify_same_run now rt status div (t : LoadTester) :
  same_run t (notify now rt status div t).
Proof.
  unfold notify, same_run. destruct (callback t) as [cb |]; [| repeat split].
  destruct (requests_sent (stats t) =? 0); [repeat split |].
  destruct (Qeq_bool _ _); [repeat split |].
  destruct (cb _ _); repeat split.
Qed.

Lemma send_http_request_same_run (io : ProbeIO) (t : LoadTester) :
  same_run t (snd (_send_http_request io t)).
Proof.
  unfold _send_http_request.
  destruct (io_exchange io) as [status th tb | err tf]; cbn [snd];
    (eapply core_same_run_trans; [| apply notify_same_run]); repeat split.
Qed.

Lemma core_gather_same_run (n : nat) (probes : nat -> ProbeIO) (i : nat)
    (t : LoadTester) :
  same_run t (snd (gather n probes i t)).
Proof.
  revert i t. induction n as [| n IH]; intros i t; [repeat split |].
  cbn [gather].
  pose proof (send_http_request_same_run (probes i) t) as Hs.
  destruct (_send_http_request (probes i) t) as [r t1]. cbn [snd] in Hs.
  specialize (IH (S i) t1).
  destruct (gather n probes (S i) t1) as [rs t2]. cbn [snd] in *.
  eapply core_same_run_trans; eassumption.
Qed.

(** What one pass of the loop leaves of the tester. *)
Lemma loop_pass_same_run (tk : Tick) (rs : RateState) (t t1 : LoadTester)
    (results : list (option Z * Q)) :
  gather (Z.to_nat (adjusted_rate (Config.rate (config t)) rs)) (tk_probes tk) 0 t
  = (results, t1) ->
  forall t2 : LoadTester, same_run t1 t2 -> same_run t t2.
Proof.
  intros Hg t2 Hs.
  pose proof (core_gather_same_run
                (Z.to_nat (adjusted_rate (Config.rate (config t)) rs))
                (tk_probes tk) 0 t) as H.
  rewrite Hg in H. cbn [snd] in H.
  eapply core_same_run_trans; eassumption.
Qed.

Lemma generate_load_loop_same_run (script : list Tick) (rs rs' : RateState)
    (t t' : LoadTester) :
  generate_load_loop script rs t = Some (rs', t') -> same_run t t'.
Proof.
  revert rs t. induction script as [| tk rest IH]; intros rs t; [discriminate |].
  cbn [generate_load_loop].
  destruct (tk_stopped tk); [intros H; injection H as _ <-; repeat split |].
  destruct (Qle_bool _ _); [intros H; injection H as _ <-; repeat split |].
  destruct (gather _ _ _ _) as [results t1] eqn:Hg.
  intros H. apply IH in H.
  eapply (loop_pass_same_run tk rs t t1 results Hg).
  eapply core_same_run_trans; [| exact H].
  destruct (0 <? rate_limited results); repeat split.
Qed.

Lemma generate_load_loop_terminates (script : list Tick) (rs : RateState)
    (t : LoadTester) :
  existsb (ends_loop (Config.duration (config t)) (start_time t)) script = true ->
  exists r, generate_load_loop script rs t = Some r.
Proof.
  revert rs t. induction script as [| tk rest IH]; intros rs t; [discriminate |].
  cbn [existsb generate_load_loop]. unfold ends_loop at 1.
  destruct (tk_stopped tk); [intros _; eexists; reflexivity |].
  destruct (Qle_bool _ _); [intros _; eexists; reflexivity |].
  cbn [orb]. intros Hrest.
  destruct (gather _ _ _ _) as [results t1] eqn:Hg.
  apply IH.
  match goal with
  | |- existsb (ends_loop (Config.duration (config ?x)) (start_time ?x)) _ = true =>
      assert (Hs : same_run t x)
  end.
  { eapply (loop_pass_same_run tk rs t t1 results Hg).
    destruct (0 <? rate_limited results); repeat split. }
  destruct Hs as (Hc & Hst & _). rewrite Hc, Hst. exact Hrest.
Qed.

(** [run] returns once the session cannot be created or the script shows
    a stop or a clock reading at or past the duration; it leaves the
    tester stopped and generates the report once, as its last action. *)
Lemma run_terminates session_error now_run now0 script (t : LoadTester) :
  session_error <> None
  \/ existsb (ends_loop (Config.duration (config t)) now0) script = true ->
  exists t' tr,
    run session_error now_run now0 script t = Some t'
    /\ running t' = false
    /\ trace t' = Report :: tr
    /\ reports (trace t') = S (reports (trace t)).
Proof.
  intros Hend. unfold run, generate_load.
  destruct session_error as [e |].
  - eexists _, _. repeat split.
  - destruct Hend as [Hne | Hend]; [congruence |].
    match goal with
    | |- context [generate_load_loop script rate_init ?t0] =>
        destruct (generate_load_loop_terminates script rate_init t0 Hend)
          as [[rs t1] Hloop];
        rewrite Hloop; apply generate_load_loop_same_run in Hloop
    end.
    destruct Hloop as (_ & _ & Hrep). cbn in Hrep.
    eexists _, _. split; [reflexivity |]. split; [reflexivity |].
    split; [reflexivity |]. cbn. now rewrite Hrep.
Qed.

End CoreTermination.

(** ** Observer callbacks and the end of a run *)

(** In [LoadTester._send_http_request] an exception of the callback is
    caught where the callback is called: it is logged with [log_error], and
    the probe goes on to return its result. *)
Lemma core_callback_error_logged :
  forall (now rt : Q) (status div : Z) (t : Core.LoadTester)
         (cb : Callback Core.CurrentStats) (msg : string),
    Core.callback t = Some cb ->
    (forall h s, cb h s = CbRaise msg) ->
    Core.requests_sent (Core.stats t) <> 0 ->
    Qeq_bool (now - Core.start_time t) 0 = false ->
    exists cs,
      Core.trace (Core.notify now rt status div t)
      = Core.LogError (Core.CallbackError msg)
          :: Core.CallbackCall cs (CbRaise msg) :: Core.trace t.
Proof.
  intros now rt status div t cb msg Hcb Hraise Hsent Hclock.
  unfold Core.notify. rewrite Hcb, Hclock, Hraise.
  destruct (Z.eqb_spec (Core.requests_sent (Core.stats t)) 0) as [E | _]; [contradiction |].
  eexists. reflexivity.
Qed.

(** C7 (evaluation at the failing input).  A run of [RealLoadTest.start]
    over three ticks, at 0.1 s, 0.2 s and 61 s of a 60 s test with target
    rate 10.  With a callback that returns, the loop runs both batches
    (2 requests), the callback is called three times and [start] returns.
    With a callback that raises, the exception leaves the loop in the first
    tick: one request is sent, the second batch never runs, and the second
    call of the callback, in [finally], lets the exception escape from
    [start]. *)
Theorem C7_callback_exception_ends_real_test_loop :
  let probe := fun _ : nat => mkProbeIO (Responded 200 (1 # 20) (1 # 50)) (1 # 10) in
  let script := [ RealTest.mkTick false false (1 # 10) (1 # 10) probe;
                  RealTest.mkTick false false (1 # 5) (1 # 5) probe;
                  RealTest.mkTick false false 61 61 probe ] in
  let test := RealTest.new_test "example.com" 10 60 in
  let summary := fun r : RealTest.Outcome * RealTest.RealLoadTest =>
                   (fst r, RealTest.requests_sent (RealTest.stats (snd r)),
                    RealTest.emitted (snd r)) in
  option_map summary
    (RealTest.start None 0 script (RealTest.set_callback (fun _ _ => CbReturn) test))
  = Some (RealTest.Returned, 2, 3%nat)
  /\ option_map summary
       (RealTest.start None 0 script
          (RealTest.set_callback (fun _ _ => CbRaise "boom") test))
     = Some (RealTest.Raised "boom", 1, 2%nat).
Proof.
  split; vm_compute; reflexivity.
Qed.

(** C8 (amended).  A run of [RealLoadTest.start] returns once the session
    cannot be created or the script shows a stop or a clock reading at or
    past the ramp-up time, whatever the probes answer and whatever left the
    loop; it ends with [running = False] and [test_completed = True].  When
    a callback is registered, the exit hands it exactly one more snapshot,
    the final statistics with [progress = 100], and [start] returns normally
    when that call returns; when none is registered, no snapshot is emitted.
    [LoadTester.run] returns under the same condition on its script, leaves
    the tester stopped and calls [generate_report] once, as its last
    action. *)
Theorem C8_final_snapshot :
  (forall (session_error : option string) (now0 : Q) (script : list RealTest.Tick)
          (t : RealTest.RealLoadTest),
      session_error <> None
      \/ existsb (RealTest.ends_loop (RealTest.ramp_up_time t) now0) script = true ->
      exists t1 o t',
        RealTest.start_try session_error now0 script t = Some t1
        /\ RealTest.start session_error now0 script t = Some (o, t')
        /\ RealTest.running t' = false
        /\ RealTest.test_completed t' = true
        /\ match RealTest.callback t with
           | Some _ =>
               exists r,
                 RealTest.trace t'
                 = RealTest.CallbackCall (RealTest.stats t') r :: RealTest.trace t1
                 /\ RealTest.progress (RealTest.stats t') = 100%Q
                 /\ RealTest.emitted t' = S (RealTest.emitted t1)
                 /\ (r = CbReturn -> o = RealTest.Returned)
           | None =>
               o = RealTest.Returned /\ RealTest.emitted t' = RealTest.emitted t
           end)
  /\ (forall (session_error : option string) (now_run now0 : Q)
             (script : list Core.Tick) (t : Core.LoadTester),
         session_error <> None
         \/ existsb (Core.ends_loop (Config.duration (Core.config t)) now0) script = true ->
         exists t' tr,
           Core.run session_error now_run now0 script t = Some t'
           /\ Core.running t' = false
           /\ Core.trace t' = Core.Report :: tr
           /\ Core.reports (Core.trace t') = S (Core.reports (Core.trace t))).
Proof.
  split.
  - intros session_error now0 script t Hend.
    destruct (start_try_terminates session_error now0 script t Hend)
      as (t1 & Htry & Hcb & Hnone).
    unfold RealTest.start. rewrite Htry.
    unfold RealTest.start_finally.
    change (RealTest.callback (RealTest.with_flags false true t1))
      with (RealTest.callback t1).
    rewrite Hcb.
    destruct (RealTest.callback t) as [cb |].
    + eexists t1, _, _. split; [reflexivity |]. split; [reflexivity |].
      split; [reflexivity |]. split; [reflexivity |].
      eexists. split; [reflexivity |]. split; [reflexivity |].
      split; [reflexivity |].
      intros Hr. rewrite Hr. reflexivity.
    + eexists t1, _, _. split; [reflexivity |]. split; [reflexivity |].
      split; [reflexivity |]. split; [reflexivity |].
      split; [reflexivity |].
      unfold RealTest.emitted. cbn [RealTest.trace RealTest.with_flags].
      now rewrite (Hnone eq_refl).
  - intros session_error now_run now0 script t Hend.
    now apply run_terminates.
Qed.

Lemma C8_final_snapshot_witness :
  let probe := fun _ : nat => mkProbeIO (Failed "timeout" 30) 31 in
  let script := [ RealTest.mkTick false false (1 # 10) (1 # 10) probe;
                  RealTest.mkTick false false 61 61 probe ] in
  let test := RealTest.set_callback (fun _ _ => CbReturn)
                (RealTest.new_test "example.com" 10 60) in
  let cfg := Config.mkTestConfig "http://example.com" 80 "http" 60 10 in
  let core_script := [ Core.mkTick false 1 probe 32; Core.mkTick true 33 probe 33 ] in
  (exists o t', RealTest.start None 0 script test = Some (o, t')
                /\ RealTest.running t' = false
                /\ RealTest.test_completed t' = true)
  /\ (exists t', Core.run None 0 0 core_script (Core.new_tester cfg) = Some t'
                 /\ Core.reports (Core.trace t') = 1%nat).
Proof.
  intros probe script test cfg core_script. split.
  - destruct (proj1 C8_final_snapshot None 0%Q script test (or_intror eq_refl))
      as (t1 & o & t' & _ & Hstart & Hrun & Hdone & _).
    exists o, t'. split; [exact Hstart |]. split; [exact Hrun | exact Hdone].
  - destruct (proj2 C8_final_snapshot None 0%Q 0%Q core_script (Core.new_tester cfg)
                (or_intror eq_refl)) as (t' & tr & Hrun & _ & _ & Hrep).
    exists t'. split; [exact Hrun | exact Hrep].
Defined.

(** C8, as stated, fails: with no callback registered a run ends without
    emitting any snapshot, and the progress it leaves is not 100. *)
Lemma C8_counterexample :
  let probe := fun _ : nat => mkProbeIO (Responded 200 (1 # 20) (1 # 50)) (1 # 10) in
  let script := [ RealTest.mkTick false false (1 # 10) (1 # 10) probe;
                  RealTest.mkTick false false 61 61 probe ] in
  let test := RealTest.new_test "example.com" 10 60 in
  option_map
    (fun r : RealTest.Outcome * RealTest.RealLoadTest =>
       (fst r, RealTest.emitted (snd r),
        Qeq_bool (RealTest.progress (RealTest.stats (snd r))) 100))
    (RealTest.start None 0 script test)
  = Some (RealTest.Returned, 0%nat, false).
Proof.
  vm_compute. reflexivity.
Qed.

(** ** A run whose batches are all rate limited *)

Section LimitedRun.

Import Core.

Lemma limited_run_succ (k : nat) : limited_run (S k) = backoff 1 (limited_run k).
Proof. reflexivity. Qed.

Lemma backoff_limited (limited : Z) (s : RateState) :
  0 < limited -> backoff limited s = backoff 1 s.
Proof.
  intros H. unfold backoff. destruct (Z.ltb_spec 0 limited); [reflexivity | lia].
Qed.

Lemma limited_clock_mono (k n : nat) : (limited_clock k <= limited_clock (k + n))%Q.
Proof.
  induction n as [| n IH].
  - rewrite Nat.add_0_r. apply Qle_refl.
  - rewrite Nat.add_succ_r. eapply Qle_trans; [exact IH |].
    unfold limited_clock. rewrite limited_run_succ.
    change (rate_limit_delay (backoff 1 (limited_run (k + n))))
      with (rate_limit_delay (limited_run (k + n)) * (3 # 2))%Q.
    pose proof (reachable_bounds _ (limited_run_reachable (k + n))) as [_ Hd].
    lra.
Qed.

Lemma gather_all_limited (n : nat) (i : nat) (t : LoadTester) :
  rate_limited (fst (gather n limited_probe i t)) = Z.of_nat n.
Proof.
  revert i t. induction n as [| n IH]; intros i t; [reflexivity |].
  cbn [gather].
  destruct (_send_http_request (limited_probe i) t) as [r t1] eqn:Hr.
  assert (Hfst : fst r = Some 429).
  { pose proof (f_equal fst Hr) as H. cbn [fst] in H. rewrite <- H. reflexivity. }
  specialize (IH (S i) t1).
  destruct (gather n limited_probe (S i) t1) as [rs t2]. cbn [fst] in *.
  unfold rate_limited in *. cbn [filter]. rewrite Hfst.
  cbn [Z.eqb Pos.eqb List.length]. lia.
Qed.

(** The loop follows the script pass by pass: after [n] rate-limited
    batches the rate state is [limited_run (k + n)]. *)
Lemma limited_script_run (n k : nat) (t : LoadTester) :
  start_time t = 0%Q ->
  (limited_clock (k + n) < inject_Z (Config.duration (config t)))%Q ->
  exists t', generate_load_loop (limited_script k n) (limited_run k) t
             = Some (limited_run (k + n), t').
Proof.
  revert k t. induction n as [| n IH]; intros k t Hstart Hdur.
  - rewrite Nat.add_0_r. eexists. reflexivity.
  - cbn [limited_script generate_load_loop tk_stopped tk_now tk_probes tk_now_progress].
    assert (Hnot : Qle_bool (inject_Z (Config.duration (config t)))
                     (limited_clock k - start_time t) = false).
    { destruct (Qle_bool _ _) eqn:E; [| reflexivity].
      apply Qle_bool_iff in E. rewrite Hstart in E.
      pose proof (limited_clock_mono k (S n)) as Hm. lra. }
    rewrite Hnot.
    pose proof (gather_all_limited
                  (Z.to_nat (adjusted_rate (Config.rate (config t)) (limited_run k)))
                  0 t) as Hlim.
    destruct (gather _ _ _ _) as [results t1] eqn:Hg. cbn [fst] in Hlim.
    assert (Hpos : 0 < rate_limited results).
    { rewrite Hlim. unfold adjusted_rate. lia. }
    rewrite (backoff_limited _ _ Hpos), <- limited_run_succ.
    rewrite Nat.add_succ_r. change (S (k + n)) with (S k + n)%nat.
    apply IH.
    + match goal with
      | |- start_time ?x = _ => assert (Hs : same_run t x)
      end.
      { eapply (loop_pass_same_run
                  (mkTick false (limited_clock k) limited_probe (limited_clock k))
                  _ t t1 results Hg).
        destruct (0 <? rate_limited results); repeat split. }
      destruct Hs as (_ & Hst & _). now rewrite Hst.
    + match goal with
      | |- (_ < inject_Z (Config.duration (config ?x)))%Q => assert (Hs : same_run t x)
      end.
      { eapply (loop_pass_same_run
                  (mkTick false (limited_clock k) limited_probe (limited_clock k))
                  _ t t1 results Hg).
        destruct (0 <? rate_limited results); repeat split. }
      destruct Hs as (Hc & _ & _). rewrite Hc.
      rewrite Nat.add_succ_r in Hdur. exact Hdur.
Qed.

End LimitedRun.

(** C3, as stated, fails: no cap bounds the delay over the runs of
    [generate_load] with a validated configuration.  Whatever the cap, a
    run that is long enough and whose batches are all rate limited ends
    with a larger delay. *)
Lemma C3_counterexample :
  ~ exists cap : Q,
      forall (d : Z) (cfg : Config.TestConfig) (script : list Core.Tick)
             (rs : Core.RateState) (t' : Core.LoadTester),
        Config.construct "example.com" 80 "http" d 1 = Ok cfg ->
        Core.generate_load None 0 script (Core.new_tester cfg) = Some (rs, t') ->
        (Core.rate_limit_delay rs <= cap)%Q.
Proof.
  intros [cap Hcap].
  destruct (delay_has_no_cap cap) as [n Hn].
  set (d := Qfloor (Core.limited_clock n) + 1).
  assert (Hclock : (Core.limited_clock n < inject_Z d)%Q) by apply Qlt_floor.
  assert (Hd : 0 < d).
  { pose proof (reachable_bounds _ (limited_run_reachable n)) as [_ H1].
    assert (H6 : (0 <= Core.limited_clock n)%Q) by (unfold Core.limited_clock; lra).
    apply Qfloor_resp_le in H6. change (Qfloor 0) with 0 in H6. lia. }
  set (cfg := Config.mkTestConfig "http://example.com" 80 "http" d 1).
  assert (Hcfg : Config.construct "example.com" 80 "http" d 1 = Ok cfg).
  { apply (construct_valid "example.com" 80 "http" d 1).
    - discriminate.
    - simpl. left. reflexivity.
    - change (Config.default_port 80 "http") with 80. lia.
    - exact Hd.
    - lia. }
  destruct (limited_script_run n 0
              (Core.with_start_time 0 (Core.with_running true (Core.new_tester cfg)))
              eq_refl Hclock) as [t1 Hrun].
  apply (Qlt_not_le _ _ Hn).
  apply (Hcap d cfg (Core.limited_script 0 n) (Core.limited_run n)
           (Core.with_running false t1) Hcfg).
  unfold Core.generate_load. change Core.rate_init with (Core.limited_run 0).
  rewrite Hrun. reflexivity.
Qed.

(** * Further properties of the code *)

(** ** [TestLogger] *)

Section LoggerFacts.

Import Logger.

Lemma last_items_length {A : Type} (k : Z) (l : list A) :
  0 <= k -> Z.of_nat (List.length (last_items k l)) = Z.min k (Z.of_nat (List.length l)).
Proof.
  intros Hk. unfold last_items. rewrite length_skipn. lia.
Qed.

Lemma last_items_suffix {A : Type} (k : Z) (l : list A) :
  exists dropped, l = dropped ++ last_items k l.
Proof.
  unfold last_items. eexists. symmetry. apply firstn_skipn.
Qed.

Lemma after_snoc (calls : list Call) (c : Call) :
  after (calls ++ [c]) = call (after calls) c.
Proof. unfold after. now rewrite fold_left_app. Qed.

Lemma history_snoc (calls : list Call) (c : Call) :
  history (calls ++ [c])
  = history calls ++ match c with Request _ rt => [rt] | Error _ => [] end.
Proof.
  induction calls as [| [s rt | m] calls IH]; cbn [app history].
  - destruct c; reflexivity.
  - now rewrite IH.
  - exact IH.
Qed.

Lemma occurrences_snoc (code : Z) (calls : list Call) (c : Call) :
  occurrences code (calls ++ [c])
  = occurrences code calls
    + match c with Request s _ => if s =? code then 1 else 0 | Error _ => 0 end.
Proof.
  induction calls as [| [s rt | m] calls IH]; cbn [app occurrences].
  - destruct c; lia.
  - rewrite IH. lia.
  - exact IH.
Qed.

Lemma errors_snoc (calls : list Call) (c : Call) :
  errors (calls ++ [c])
  = errors calls + match c with Request _ _ => 0 | Error _ => 1 end.
Proof.
  induction calls as [| [s rt | m] calls IH]; cbn [app errors].
  - destruct c; reflexivity.
  - exact IH.
  - rewrite IH. lia.
Qed.

Lemma occurrences_nonneg (code : Z) (calls : list Call) : 0 <= occurrences code calls.
Proof.
  induction calls as [| [s rt | m] calls IH]; cbn [occurrences]; [lia | | exact IH].
  destruct (s =? code); lia.
Qed.

Lemma dict_get_set_same (k v : Z) (d : Dict) : dict_get k (dict_set k v d) = Some v.
Proof.
  induction d as [| [k' v'] d IH]; cbn [dict_set dict_get].
  - now rewrite Z.eqb_refl.
  - destruct (Z.eqb_spec k k') as [-> | Hne]; cbn [dict_get].
    + now rewrite Z.eqb_refl.
    + destruct (Z.eqb_spec k k'); [contradiction | exact IH].
Qed.

Lemma dict_get_set_other (k k0 v : Z) (d : Dict) :
  k0 <> k -> dict_get k0 (dict_set k v d) = dict_get k0 d.
Proof.
  intros Hne. induction d as [| [k' v'] d IH]; cbn [dict_set dict_get].
  - destruct (Z.eqb_spec k0 k); [contradiction | reflexivity].
  - destruct (Z.eqb_spec k k') as [-> | Hk]; cbn [dict_get].
    + destruct (Z.eqb_spec k0 k'); [contradiction | reflexivity].
    + destruct (k0 =? k'); [reflexivity | exact IH].
Qed.

Lemma dict_total_set (k v : Z) (d : Dict) :
  dict_total (dict_set k v d)
  = dict_total d + v - match dict_get k d with Some c => c | None => 0 end.
Proof.
  induction d as [| [k' v'] d IH]; cbn [dict_set dict_get dict_total]; [lia |].
  destruct (Z.eqb_spec k k') as [-> | Hk]; cbn [dict_total]; [lia |].
  rewrite IH. lia.
Qed.

Lemma dict_set_keys (k v : Z) (d : Dict) :
  NoDup (map fst d) ->
  NoDup (map fst (dict_set k v d))
  /\ (forall x, In x (map fst (dict_set k v d)) <-> x = k \/ In x (map fst d)).
Proof.
  induction d as [| [k' v'] d IH]; cbn [dict_set map fst]; intros Hnd.
  - split; [repeat constructor; intros [] |]. intros x. cbn. intuition.
  - inversion Hnd as [| ? ? Hnotin Hnd']; subst.
    destruct (Z.eqb_spec k k') as [-> | Hk]; cbn [map fst].
    + split; [exact Hnd |]. intros x. cbn. intuition.
    + destruct (IH Hnd') as [IH1 IH2]. split.
      * constructor; [| exact IH1]. intros Hin. apply IH2 in Hin.
        destruct Hin as [-> | Hin]; [now apply Hk | contradiction].
      * intros x. cbn. rewrite IH2. intuition.
Qed.

(** The invariant of a logger that only its two methods have touched. *)
Lemma logger_invariant (calls : list Call) :
  let lg := after calls in
  requests_count lg = Z.of_nat (List.length (history calls))
  /\ errors_count lg = errors calls
  /\ Z.of_nat (List.length (response_times lg)) <= max_stored_responses
  /\ (exists dropped, history calls = dropped ++ response_times lg)
  /\ NoDup (map fst (status_codes lg))
  /\ dict_total (status_codes lg) = requests_count lg
  /\ (forall code,
        dict_get code (status_codes lg)
        = if occurrences code calls =? 0 then None else Some (occurrences code calls)).
Proof.
  induction calls as [| c calls IH] using rev_ind.
  - cbn zeta. change (after []) with new_logger.
    cbn [new_logger requests_count errors_count response_times status_codes
         history errors occurrences List.length map dict_total dict_get Z.eqb].
    split; [reflexivity |]. split; [reflexivity |].
    split; [unfold max_stored_responses; lia |].
    split; [exists []; reflexivity |].
    split; [constructor |]. split; reflexivity.
  - cbn zeta in *. rewrite after_snoc, history_snoc, errors_snoc.
    destruct IH as (Hreq & Herr & Hlen & [dropped Hsuf] & Hnd & Htot & Hget).
    destruct c as [s rt | m]; cbn [call].
    + split; [| split; [| split; [| split; [| split; [| split]]]]].
      * unfold log_request. cbn [requests_count]. rewrite length_app. cbn [List.length]. lia.
      * unfold log_request. cbn [errors_count]. lia.
      * unfold log_request. cbn [response_times]. rewrite length_app. cbn [List.length].
        destruct (Z.leb_spec max_stored_responses
                    (Z.of_nat (List.length (response_times (after calls))))).
        -- pose proof (last_items_length (max_stored_responses / 2)
                         (response_times (after calls))) as Hl.
           change (max_stored_responses / 2) with 5000 in *.
           unfold max_stored_responses in *. lia.
        -- unfold max_stored_responses in *. lia.
      * unfold log_request. cbn [response_times].
        destruct (max_stored_responses <=? _).
        -- destruct (last_items_suffix (max_stored_responses / 2)
                       (response_times (after calls))) as [d2 Hd2].
           exists (dropped ++ d2). rewrite Hsuf. rewrite Hd2 at 1.
           now rewrite !app_assoc.
        -- exists dropped. rewrite Hsuf. now rewrite app_assoc.
      * unfold log_request. cbn [status_codes]. now apply dict_set_keys.
      * unfold log_request. cbn [status_codes requests_count].
        rewrite dict_total_set. destruct (dict_get s (status_codes (after calls))); lia.
      * intros code. unfold log_request. cbn [status_codes].
        rewrite occurrences_snoc.
        pose proof (occurrences_nonneg code calls) as Hnn.
        destruct (Z.eqb_spec s code) as [-> | Hne].
        -- rewrite dict_get_set_same, Hget.
           destruct (Z.eqb_spec (occurrences code calls) 0) as [E | E].
           ++ rewrite E. reflexivity.
           ++ destruct (Z.eqb_spec (occurrences code calls + 1) 0); [lia | reflexivity].
        -- rewrite dict_get_set_other by congruence. rewrite Hget, Z.add_0_r. reflexivity.
    + cbn [log_error requests_count errors_count response_times status_codes].
      rewrite app_nil_r. repeat split; try assumption; try lia.
      * now exists dropped.
      * intros code. rewrite occurrences_snoc, Z.add_0_r. apply Hget.
Qed.

End LoggerFacts.

Section LoggerReport.

Import Logger.

Lemma logger_stored_lower (calls : list Call) :
  Z.min (Z.of_nat (List.length (history calls))) 5001
  <= Z.of_nat (List.length (response_times (after calls))).
Proof.
  induction calls as [| c calls IH] using rev_ind; [cbn; lia |].
  rewrite after_snoc, history_snoc.
  destruct c as [s rt | m]; cbn [call].
  - unfold log_request. cbn [response_times]. rewrite !length_app. cbn [List.length].
    destruct (Z.leb_spec max_stored_responses
                (Z.of_nat (List.length (response_times (after calls))))).
    + pose proof (last_items_length (max_stored_responses / 2)
                    (response_times (after calls))) as Hl.
      change (max_stored_responses / 2) with 5000 in *.
      unfold max_stored_responses in *. lia.
    + destruct (logger_invariant calls) as (_ & _ & _ & [dropped Hsuf] & _).
      apply (f_equal (@List.length Q)) in Hsuf. rewrite length_app in Hsuf. lia.
  - cbn [log_error response_times]. rewrite app_nil_r. exact IH.
Qed.

Lemma distribution_lines (total : Z) (d : Dict) :
  total <> 0 ->
  distribution total d
  = Some (map (fun item => mkDistributionLine (fst item) (snd item) total) d).
Proof.
  intros Ht. induction d as [| [code count] d IH]; [reflexivity |].
  cbn [distribution map fst snd]. destruct (Z.eqb_spec total 0); [contradiction |].
  now rewrite IH.
Qed.





End LoggerReport.

Section LoggerExtras.

Import Logger.

Lemma occurrences_bound (code : Z) (calls : list Call) :
  occurrences code calls <= Z.of_nat (List.length (history calls)).
Proof.
  induction calls as [| [s rt | m] calls IH]; cbn [occurrences history List.length];
    [lia | | exact IH].
  destruct (s =? code); lia.
Qed.

Lemma dict_get_none_nil (d : Dict) : (forall k, dict_get k d = None) -> d = [].
Proof.
  destruct d as [| [k v] d]; [reflexivity |].
  intros H. specialize (H k). cbn [dict_get] in H. rewrite Z.eqb_refl in H. discriminate.
Qed.

Lemma dict_get_in (k v : Z) (d : Dict) :
  NoDup (map fst d) -> In (k, v) d -> dict_get k d = Some v.
Proof.
  induction d as [| [k' v'] d IH]; intros Hnd Hin; [destruct Hin |].
  inversion Hnd as [| ? ? Hnotin Hnd']; subst. cbn [dict_get].
  destruct Hin as [E | Hin].
  - inversion E; subst. now rewrite Z.eqb_refl.
  - destruct (Z.eqb_spec k k') as [-> | Hne]; [| now apply IH].
    exfalso. apply Hnotin. change k' with (fst (k', v)). now apply in_map.
Qed.

(** Every item of the histogram counts at least one and at most all of the
    logged requests. *)
Lemma histogram_items (calls : list Call) (k v : Z) :
  In (k, v) (status_codes (after calls)) ->
  v = occurrences k calls /\ 1 <= v <= requests_count (after calls).
Proof.
  intros Hin.
  destruct (logger_invariant calls) as (Hreq & _ & _ & _ & Hnd & _ & Hget).
  pose proof (dict_get_in k v _ Hnd Hin) as Hk. rewrite Hget in Hk.
  pose proof (occurrences_bound k calls). pose proof (occurrences_nonneg k calls).
  destruct (Z.eqb_spec (occurrences k calls) 0); [discriminate |].
  inversion Hk; subst. split; [reflexivity | lia].
Qed.


End LoggerExtras.

(** X1.  [TestLogger.log_request] keeps the memory of the response times
    bounded without losing the recent ones: after any sequence of calls, the
    stored list is the tail of the full history of logged response times, it
    never has more than 10000 items, and it has all of them while there are
    at most 5001. *)
Theorem X1_logger_keeps_recent_response_times :
  forall calls : list Logger.Call,
    (exists dropped,
        Logger.history calls = dropped ++ Logger.response_times (Logger.after calls))
    /\ Z.min (Z.of_nat (List.length (Logger.history calls))) 5001
       <= Z.of_nat (List.length (Logger.response_times (Logger.after calls)))
       <= 10000.
Proof.
  intros calls.
  destruct (logger_invariant calls) as (_ & _ & Hlen & Hsuf & _).
  split; [exact Hsuf |]. split; [apply logger_stored_lower | exact Hlen].
Qed.

(** X2.  The histogram [status_codes] counts the logged requests by status
    code: a code is a key exactly when a request with it was logged, its
    value is the number of those requests, no key occurs twice, and the
    values add up to [requests_count], the number of [log_request] calls;
    [errors_count] is the number of [log_error] calls. *)
Theorem X2_logger_status_histogram :
  forall (calls : list Logger.Call) (code : Z),
    Logger.dict_get code (Logger.status_codes (Logger.after calls))
    = (if Logger.occurrences code calls =? 0 then None
       else Some (Logger.occurrences code calls))
    /\ NoDup (map fst (Logger.status_codes (Logger.after calls)))
    /\ Logger.dict_total (Logger.status_codes (Logger.after calls))
       = Logger.requests_count (Logger.after calls)
    /\ Logger.requests_count (Logger.after calls)
       = Z.of_nat (List.length (Logger.history calls))
    /\ Logger.errors_count (Logger.after calls) = Logger.errors calls.
Proof.
  intros calls code.
  destruct (logger_invariant calls) as (Hreq & Herr & _ & _ & Hnd & Htot & Hget).
  repeat split; try assumption. apply Hget.
Qed.

(** X3.  The status code distribution of [generate_report] never divides
    by zero on a logger that only its methods have touched.  It has one line
    per item of the histogram, in the order of the items; the divisor of
    every line is [requests_count], and the count of a line is the number of
    logged requests with its status code, at least one and at most
    [requests_count].  The theorem is about the operands of the percentage,
    not about its floating-point value. *)
Theorem X3_logger_distribution_lines :
  forall calls : list Logger.Call,
    exists lines,
      Logger.status_code_distribution (Logger.after calls) = Some lines
      /\ map (fun line => (Logger.dl_code line, Logger.dl_count line)) lines
         = Logger.status_codes (Logger.after calls)
      /\ Forall (fun line =>
                   Logger.dl_divisor line = Logger.requests_count (Logger.after calls)
                   /\ Logger.dl_divisor line <> 0
                   /\ Logger.dl_count line = Logger.occurrences (Logger.dl_code line) calls
                   /\ 1 <= Logger.dl_count line <= Logger.dl_divisor line)
                lines.
Proof.
  intros calls.
  unfold Logger.status_code_distribution.
  destruct (Logger.status_codes (Logger.after calls)) as [| item d] eqn:Ed.
  - exists []. repeat split. constructor.
  - assert (Hne : Logger.requests_count (Logger.after calls) <> 0).
    { destruct item as [k v].
      destruct (histogram_items calls k v) as [_ Hv]; [rewrite Ed; now left | lia]. }
    rewrite (distribution_lines _ (item :: d) Hne). eexists. split; [reflexivity |].
    split.
    + rewrite map_map. cbn [Logger.dl_code Logger.dl_count].
      rewrite <- (map_id (item :: d)) at 2. apply map_ext. now intros [k v].
    + apply Forall_forall. intros line Hin. apply in_map_iff in Hin.
      destruct Hin as ([k v] & <- & Hin).
      cbn [Logger.dl_code Logger.dl_count Logger.dl_divisor fst snd].
      destruct (histogram_items calls k v) as [Hocc Hv]; [now rewrite Ed |].
      repeat split; try assumption; lia.
Qed.


(** ** The TCP and UDP probes *)


(** X6.  [UDPProtocol.send_request] never raises.  It succeeds exactly when
    the endpoint is created, the probe is sent and a datagram with at least
    one byte arrives.  A failure without error text is exactly a missing
    reply (timeout) or an empty datagram; an empty datagram is returned as
    the response of a failed probe. *)
Theorem X6_udp_probe_result :
  forall io : Protocols.UdpIO,
    (Protocols.success (Protocols.udp_send_request io) = true
     <-> exists b data,
           Protocols.udp_endpoint io = Protocols.Done tt
           /\ Protocols.udp_send io = Protocols.Done tt
           /\ Protocols.udp_receive io = Protocols.Datagram (b :: data)
           /\ Protocols.response (Protocols.udp_send_request io) = Some (b :: data))
    /\ (Protocols.success (Protocols.udp_send_request io) = false
        /\ Protocols.error (Protocols.udp_send_request io) = None
        <-> Protocols.udp_endpoint io = Protocols.Done tt
            /\ Protocols.udp_send io = Protocols.Done tt
            /\ (Protocols.udp_receive io = Protocols.NoReply
                /\ Protocols.response (Protocols.udp_send_request io) = None
                \/ Protocols.udp_receive io = Protocols.Datagram []
                   /\ Protocols.response (Protocols.udp_send_request io) = Some [])).
Proof.
  intros io. unfold Protocols.udp_send_request.
  destruct (Protocols.udp_endpoint io) as [[] | m1]; cbn.
  2: { split; split.
       - discriminate.
       - intros (b & data & H & _). discriminate.
       - intros [_ H]. discriminate.
       - intros (H & _). discriminate. }
  destruct (Protocols.udp_send io) as [[] | m2]; cbn.
  2: { split; split.
       - discriminate.
       - intros (b & data & _ & H & _). discriminate.
       - intros [_ H]. discriminate.
       - intros (_ & H & _). discriminate. }
  destruct (Protocols.udp_receive io) as [[| b data] | | m3]; cbn; split; split.
  - discriminate.
  - intros (b & data & _ & _ & H & _). discriminate.
  - intros _. repeat split. right. split; reflexivity.
  - intros _. split; reflexivity.
  - intros _. exists b, data. repeat split.
  - reflexivity.
  - intros [H _]. discriminate.
  - intros (_ & _ & [[H _] | [H _]]); discriminate.
  - discriminate.
  - intros (b & data & _ & _ & H & _). discriminate.
  - intros _. repeat split. left. split; reflexivity.
  - intros _. split; reflexivity.
  - discriminate.
  - intros (b & data & _ & _ & H & _). discriminate.
  - intros [_ H]. discriminate.
  - intros (_ & _ & [[H _] | [H _]]); discriminate.
Qed.

Lemma X6_udp_probe_result_witness :
  let io := Protocols.mkUdpIO 0 (Protocols.Done tt) (Protocols.Done tt)
              (Protocols.Datagram []) 1 in
  Protocols.success (Protocols.udp_send_request io) = false
  /\ Protocols.error (Protocols.udp_send_request io) = None.
Proof.
  intros io. apply (proj2 (proj2 (X6_udp_probe_result io))).
  split; [reflexivity |]. split; [reflexivity |].
  right. split; reflexivity.
Defined.

(** ** The loops of [LoadTester] *)

Section PyStrFacts.



End PyStrFacts.

Section LoopsFacts.

Import Loops.




Lemma gather_requests_sent (n : nat) (probes : nat -> ProbeIO) (i : nat)
    (t : Core.LoadTester) :
  Core.requests_sent (Core.stats (snd (Core.gather n probes i t)))
  = Core.requests_sent (Core.stats t) + Z.of_nat n.
Proof.
  revert i t. induction n as [| n IH]; intros i t; [cbn; lia |].
  cbn [Core.gather].
  destruct (send_http_request_counters (probes i) t) as [H1 _].
  destruct (Core._send_http_request (probes i) t) as [r t1]. cbn [snd] in H1.
  specialize (IH (S i) t1).
  destruct (Core.gather n probes (S i) t1) as [rs t2]. cbn [snd] in *. lia.
Qed.

End LoopsFacts.



Section LoopsRuns.

Import Loops.


Lemma http_load_requests (script : list Core.Tick) (t t' : Core.LoadTester) :
  0 <= Config.rate (Core.config t) ->
  _generate_http_load script t = Some t' ->
  Core.requests_sent (Core.stats t')
  = Core.requests_sent (Core.stats t)
    + Z.of_nat (passes (Core.ends_loop (Config.duration (Core.config t))
                          (Core.start_time t)) script)
      * Config.rate (Core.config t).
Proof.
  revert t. induction script as [| tk rest IH]; intros t Hrate; [discriminate |].
  cbn [_generate_http_load passes]. unfold Core.ends_loop at 1.
  destruct (Core.tk_stopped tk); cbn [orb].
  { intros H. injection H as <-. cbn. lia. }
  destruct (Qle_bool _ _).
  { intros H. injection H as <-. lia. }
  pose proof (gather_requests_sent (Z.to_nat (Config.rate (Core.config t)))
                (Core.tk_probes tk) 0 t) as Hg.
  pose proof (core_gather_same_run (Z.to_nat (Config.rate (Core.config t)))
                (Core.tk_probes tk) 0 t) as (Hc & Hs & _).
  destruct (Core.gather _ _ _ _) as [results t1]. cbn [snd] in *.
  intros H. apply IH in H; cbn [Core.config Core.emit]; [| now rewrite Hc].
  cbn [Core.config Core.emit Core.start_time Core.stats] in H.
  rewrite Hc, Hs in H. rewrite H, Hg. rewrite Z2Nat.id by exact Hrate. lia.
Qed.

Lemma generate_load_loop_requests (script : list Core.Tick) (rs rs' : Core.RateState)
    (t t' : Core.LoadTester) :
  0 < Config.rate (Core.config t) ->
  Core.reachable rs ->
  Core.generate_load_loop script rs t = Some (rs', t') ->
  let n := Z.of_nat (passes (Core.ends_loop (Config.duration (Core.config t))
                               (Core.start_time t)) script) in
  n <= Core.requests_sent (Core.stats t') - Core.requests_sent (Core.stats t)
    <= n * Config.rate (Core.config t).
Proof.
  revert rs t. induction script as [| tk rest IH]; intros rs t Hrate Hreach;
    [discriminate |].
  cbn zeta in *. cbn [Core.generate_load_loop passes].
  destruct (Core.ends_loop (Config.duration (Core.config t)) (Core.start_time t) tk)
    eqn:E; unfold Core.ends_loop in E.
  { destruct (Core.tk_stopped tk); cbn [orb] in E.
    - intros H. injection H as _ <-. cbn. lia.
    - rewrite E. intros H. injection H as _ <-. lia. }
  apply orb_false_elim in E. destruct E as [E1 E2]. rewrite E1, E2.
  pose proof (gather_requests_sent
                (Z.to_nat (Core.adjusted_rate (Config.rate (Core.config t)) rs))
                (Core.tk_probes tk) 0 t) as Hg.
  pose proof (core_gather_same_run
                (Z.to_nat (Core.adjusted_rate (Config.rate (Core.config t)) rs))
                (Core.tk_probes tk) 0 t) as (Hc & Hs & _).
  destruct (Core.gather _ _ _ _) as [results t1]. cbn [snd] in *.
  destruct (reachable_bounds rs Hreach) as [Hcnt _].
  pose proof (adjusted_rate_le (Config.rate (Core.config t)) rs Hrate (proj1 Hcnt)) as Hle.
  assert (H1 : 1 <= Core.adjusted_rate (Config.rate (Core.config t)) rs)
    by (unfold Core.adjusted_rate; lia).
  intros H. apply IH in H.
  - destruct (0 <? Core.rate_limited results);
      cbn [Core.config Core.emit Core.start_time Core.stats] in H;
      rewrite Hc, Hs in H; rewrite Hg in H; rewrite Z2Nat.id in H by lia;
      nia.
  - destruct (0 <? Core.rate_limited results); cbn [Core.config Core.emit];
      now rewrite Hc.
  - now apply Core.reach_step.
Qed.

Lemma notify_accounted now rt status div (t : Core.LoadTester) :
  logged_requests (Core.trace (Core.notify now rt status div t))
  = logged_requests (Core.trace t)
  /\ request_errors (Core.trace (Core.notify now rt status div t))
     = request_errors (Core.trace t)
  /\ logged_successes (Core.trace (Core.notify now rt status div t))
     = logged_successes (Core.trace t).
Proof.
  unfold Core.notify. destruct (Core.callback t) as [cb |]; [| repeat split].
  destruct (Core.requests_sent (Core.stats t) =? 0); [repeat split |].
  destruct (Qeq_bool _ _); [repeat split |].
  destruct (cb _ _); repeat split.
Qed.

Lemma send_http_request_accounted (io : ProbeIO) (t : Core.LoadTester) :
  accounted t -> accounted (snd (Core._send_http_request io t)).
Proof.
  unfold accounted, Core._send_http_request. intros [H1 H2].
  destruct (io_exchange io) as [status th tb | err tf]; cbn [snd];
    rewrite !notify_stats;
    match goal with
    | |- context [Core.notify ?a ?b ?c ?d ?u] =>
        destruct (notify_accounted a b c d u) as (N1 & N2 & N3)
    end;
    rewrite N1, N2, N3; clear N1 N2 N3;
    cbn [Core.stats Core.with_stats Core.trace Core.emit Core.requests_sent
         Core.success_count logged_requests request_errors logged_successes];
    [destruct (status <? 400) |]; lia.
Qed.

End LoopsRuns.

Section Accounting.

Import Loops.

Lemma gather_accounted (n : nat) (probes : nat -> ProbeIO) (i : nat) (t : Core.LoadTester) :
  accounted t -> accounted (snd (Core.gather n probes i t)).
Proof.
  revert i t. induction n as [| n IH]; intros i t Ha; [exact Ha |].
  cbn [Core.gather].
  pose proof (send_http_request_accounted (probes i) t Ha) as H1.
  destruct (Core._send_http_request (probes i) t) as [r t1]. cbn [snd] in H1.
  specialize (IH (S i) t1 H1).
  destruct (Core.gather n probes (S i) t1) as [rs t2]. exact IH.
Qed.

Lemma generate_load_loop_accounted (script : list Core.Tick) (rs rs' : Core.RateState)
    (t t' : Core.LoadTester) :
  accounted t -> Core.generate_load_loop script rs t = Some (rs', t') -> accounted t'.
Proof.
  revert rs t. induction script as [| tk rest IH]; intros rs t Ha; [discriminate |].
  cbn [Core.generate_load_loop].
  destruct (Core.tk_stopped tk); [intros H; injection H as _ <-; exact Ha |].
  destruct (Qle_bool _ _); [intros H; injection H as _ <-; exact Ha |].
  pose proof (gather_accounted
                (Z.to_nat (Core.adjusted_rate (Config.rate (Core.config t)) rs))
                (Core.tk_probes tk) 0 t Ha) as Hg.
  destruct (Core.gather _ _ _ _) as [results t1]. cbn [snd] in Hg.
  apply IH. destruct (0 <? Core.rate_limited results); exact Hg.
Qed.

Lemma run_accounted session_error now_run now0 script (t t' : Core.LoadTester) :
  accounted t -> Core.run session_error now_run now0 script t = Some t' -> accounted t'.
Proof.
  intros Ha. unfold Core.run, Core.generate_load.
  destruct session_error as [e |].
  - intros H. injection H as <-. exact Ha.
  - destruct (Core.generate_load_loop _ _ _) as [[rs t1] |] eqn:E; [| discriminate].
    intros H. injection H as <-.
    apply generate_load_loop_accounted in E; [exact E | exact Ha].
Qed.

End Accounting.



(** X9.  The loop of [_generate_http_load] has no rate control: every full
    pass sends exactly [rate] requests, so a run of [passes] passes raises
    [requests_sent] by [passes * rate], whatever the probes answer. *)
Theorem X9_http_load_fixed_rate :
  forall (script : list Core.Tick) (t t' : Core.LoadTester),
    0 <= Config.rate (Core.config t) ->
    Loops._generate_http_load script t = Some t' ->
    Core.requests_sent (Core.stats t')
    = Core.requests_sent (Core.stats t)
      + Z.of_nat (Loops.passes (Core.ends_loop (Config.duration (Core.config t))
                                  (Core.start_time t)) script)
        * Config.rate (Core.config t).
Proof.
  intros script t t' Hrate Hrun. now apply http_load_requests.
Qed.

Lemma X9_http_load_fixed_rate_witness :
  let cfg := Config.mkTestConfig "http://example.com" 80 "http" 5 4 in
  let probes := fun _ : nat => mkProbeIO (Responded 429 (1 # 10) (1 # 10)) 1 in
  let script := [ Core.mkTick false 1 probes 1; Core.mkTick false 2 probes 2;
                  Core.mkTick false 6 probes 6 ] in
  exists t',
    Loops._generate_http_load script (Core.new_tester cfg) = Some t'
    /\ Core.requests_sent (Core.stats t') = 8.
Proof.
  intros cfg probes script.
  assert (Hrun : exists t', Loops._generate_http_load script (Core.new_tester cfg) = Some t')
    by (vm_compute; eexists; reflexivity).
  destruct Hrun as [t' Hrun]. exists t'. split; [exact Hrun |].
  assert (Hrate : 0 <= Config.rate (Core.config (Core.new_tester cfg)))
    by (vm_compute; discriminate).
  rewrite (X9_http_load_fixed_rate script (Core.new_tester cfg) t' Hrate Hrun).
  vm_compute. reflexivity.
Defined.

(** X10.  The loop of [generate_load] sends at least one and at most
    [rate] requests in every full pass: after [passes] passes
    [requests_sent] has grown by at least [passes] and at most
    [passes * rate], for a validated (positive) rate. *)
Theorem X10_generate_load_request_bounds :
  forall (script : list Core.Tick) (rs rs' : Core.RateState) (t t' : Core.LoadTester),
    0 < Config.rate (Core.config t) ->
    Core.reachable rs ->
    Core.generate_load_loop script rs t = Some (rs', t') ->
    Z.of_nat (Loops.passes (Core.ends_loop (Config.duration (Core.config t))
                              (Core.start_time t)) script)
    <= Core.requests_sent (Core.stats t') - Core.requests_sent (Core.stats t)
    <= Z.of_nat (Loops.passes (Core.ends_loop (Config.duration (Core.config t))
                                 (Core.start_time t)) script)
       * Config.rate (Core.config t).
Proof.
  intros script rs rs' t t' Hrate Hreach Hrun.
  exact (generate_load_loop_requests script rs rs' t t' Hrate Hreach Hrun).
Qed.

Lemma X10_generate_load_request_bounds_witness :
  let cfg := Config.mkTestConfig "http://example.com" 80 "http" 60 4 in
  let probes := fun _ : nat => mkProbeIO (Responded 429 (1 # 10) (1 # 10)) 1 in
  let script := [ Core.mkTick false 1 probes 1; Core.mkTick false 4 probes 4;
                  Core.mkTick true 9 probes 9 ] in
  exists rs' t',
    Core.generate_load_loop script Core.rate_init (Core.new_tester cfg) = Some (rs', t')
    /\ 2 <= Core.requests_sent (Core.stats t') - 0 <= 2 * 4.
Proof.
  intros cfg probes script.
  assert (Hrun : exists rs' t',
             Core.generate_load_loop script Core.rate_init (Core.new_tester cfg)
             = Some (rs', t')) by (vm_compute; eexists _, _; reflexivity).
  destruct Hrun as (rs' & t' & Hrun). exists rs', t'. split; [exact Hrun |].
  assert (Hrate : 0 < Config.rate (Core.config (Core.new_tester cfg)))
    by (vm_compute; reflexivity).
  exact (X10_generate_load_request_bounds script Core.rate_init rs'
           (Core.new_tester cfg) t' Hrate Core.reach_init Hrun).
Defined.

(** X11.  The statistics of [LoadTester] agree with its log over a whole
    [run]: [requests_sent] is the number of responses logged with
    [log_request] plus the number of request errors logged with
    [log_error], and [success_count] is the number of logged responses
    with a status below 400, whatever the callback does. *)
Theorem X11_statistics_match_the_log :
  forall (session_error : option string) (now_run now0 : Q) (script : list Core.Tick)
         (t t' : Core.LoadTester),
    Loops.accounted t ->
    Core.run session_error now_run now0 script t = Some t' ->
    Core.requests_sent (Core.stats t')
    = Loops.logged_requests (Core.trace t') + Loops.request_errors (Core.trace t')
    /\ Core.success_count (Core.stats t') = Loops.logged_successes (Core.trace t').
Proof.
  intros session_error now_run now0 script t t' Ha Hrun.
  exact (run_accounted session_error now_run now0 script t t' Ha Hrun).
Qed.

Lemma X11_statistics_match_the_log_witness :
  let cfg := Config.mkTestConfig "http://example.com" 80 "http" 60 4 in
  let probes := fun i : nat =>
                  mkProbeIO (if Nat.even i then Responded 200 (1 # 10) (1 # 10)
                             else Failed "timeout" 30) 1 in
  let script := [ Core.mkTick false 1 probes 1; Core.mkTick true 9 probes 9 ] in
  let t := Core.set_callback (fun _ _ => CbRaise "boom") (Core.new_tester cfg) in
  exists t',
    Core.run None 0 0 script t = Some t'
    /\ Core.requests_sent (Core.stats t')
       = Loops.logged_requests (Core.trace t') + Loops.request_errors (Core.trace t').
Proof.
  intros cfg probes script t.
  assert (Hrun : exists t', Core.run None 0 0 script t = Some t')
    by (vm_compute; eexists; reflexivity).
  destruct Hrun as [t' Hrun]. exists t'. split; [exact Hrun |].
  assert (Ha : Loops.accounted t) by (split; reflexivity).
  exact (proj1 (X11_statistics_match_the_log None 0 0 script t t' Ha Hrun)).
Defined.

(** ** Recovery of the rate of [generate_load] *)

Section Recovery.

Import Core.

Lemma clean_batches (k : nat) (s : RateState) :
  reachable s ->
  reachable (Nat.iter k (backoff 0) s)
  /\ consecutive_429s (Nat.iter k (backoff 0) s)
     = Z.max 0 (consecutive_429s s - Z.of_nat k)
  /\ (rate_limit_delay (Nat.iter k (backoff 0) s) <= rate_limit_delay s)%Q.
Proof.
  intros Hr. induction k as [| k (IH1 & IH2 & IH3)].
  - change (Nat.iter 0 (backoff 0) s) with s.
    destruct (reachable_bounds s Hr) as [Hc _].
    split; [exact Hr |]. split; [lia | apply Qle_refl].
  - change (Nat.iter (S k) (backoff 0) s) with (backoff 0 (Nat.iter k (backoff 0) s)).
    split; [now apply reach_step |].
    destruct (reachable_bounds _ IH1) as [_ Hd].
    unfold backoff at 1 3. cbn [Z.ltb Z.compare consecutive_429s rate_limit_delay].
    split; [rewrite IH2; lia |].
    eapply Qle_trans; [| exact IH3].
    unfold py_max. destruct (Qltb _ _) eqn:E; [lra | exact Hd].
Qed.

End Recovery.

(** X12.  The back-off of [generate_load] is undone by clean batches: from
    every state the loop can reach, five batches without a 429 answer in a
    row bring the counter back to 0 and the batch size back to the full
    configured rate, and the sleep interval has not grown meanwhile. *)
Theorem X12_five_clean_batches_restore_the_rate :
  forall (rate : Z) (s : Core.RateState),
    0 < rate -> Core.reachable s ->
    Core.consecutive_429s (Nat.iter 5 (Core.backoff 0) s) = 0
    /\ Core.adjusted_rate rate (Nat.iter 5 (Core.backoff 0) s) = rate
    /\ (Core.rate_limit_delay (Nat.iter 5 (Core.backoff 0) s)
        <= Core.rate_limit_delay s)%Q.
Proof.
  intros rate s Hrate Hr.
  destruct (clean_batches 5 s Hr) as (_ & Hc & Hd).
  destruct (reachable_bounds s Hr) as [Hb _].
  assert (H0 : Core.consecutive_429s (Nat.iter 5 (Core.backoff 0) s) = 0)
    by (rewrite Hc; lia).
  split; [exact H0 |]. split; [| exact Hd].
  unfold Core.adjusted_rate. rewrite H0. change (2 ^ 0) with 1.
  rewrite Z.div_1_r. lia.
Qed.

Lemma X12_five_clean_batches_restore_the_rate_witness :
  Core.adjusted_rate 100 (Nat.iter 5 (Core.backoff 0) (Core.limited_run 7)) = 100.
Proof.
  refine (proj1 (proj2 (X12_five_clean_batches_restore_the_rate 100
                          (Core.limited_run 7) _ _))).
  - lia.
  - apply limited_run_reachable.
Defined.

(** ** Statistics of [RealLoadTest] *)

Section RealStats.

Import RealTest.

Lemma real_send_request_counted (io : ProbeIO) (t : RealLoadTest) :
  requests_sent (stats (snd (_send_request io t)))
  + error_count (stats (snd (_send_request io t)))
  = requests_sent (stats t) + error_count (stats t) + 1
  /\ current_users (stats (snd (_send_request io t))) = current_users (stats t)
  /\ progress (stats (snd (_send_request io t))) = progress (stats t).
Proof.
  unfold _send_request.
  destruct (io_exchange io) as [status th tb | err tf]; cbn; repeat split; lia.
Qed.

Lemma real_gather_counted (n : nat) (probes : nat -> ProbeIO) (i : nat) (t : RealLoadTest) :
  requests_sent (stats (snd (gather n probes i t)))
  + error_count (stats (snd (gather n probes i t)))
  = requests_sent (stats t) + error_count (stats t) + Z.of_nat n
  /\ current_users (stats (snd (gather n probes i t))) = current_users (stats t)
  /\ progress (stats (snd (gather n probes i t))) = progress (stats t).
Proof.
  revert i t. induction n as [| n IH]; intros i t.
  - cbn. repeat split; lia.
  - cbn [gather].
    destruct (real_send_request_counted (probes i) t) as (A1 & A2 & A3).
    destruct (_send_request (probes i) t) as [r t1]. cbn [snd] in *.
    destruct (IH (S i) t1) as (B1 & B2 & B3).
    destruct (gather n probes (S i) t1) as [rs t2]. cbn [snd] in *.
    repeat split; try congruence. lia.
Qed.

Lemma py_min_upper (a b : Q) : (py_min a b <= a)%Q.
Proof.
  unfold py_min. destruct (Qltb b a) eqn:E.
  - apply Qltb_true in E. now apply Qlt_le_weak.
  - apply Qle_refl.
Qed.

End RealStats.


Section RealDerived.

Import RealTest.

Lemma real_visits_derived (t0 t : RealLoadTest) :
  visits t0 t ->
  (success_rate (stats t0)
   == inject_Z (success_count (stats t0))
      / inject_Z (Z.max 1 (requests_sent (stats t0))) * 100)%Q
  /\ (avg_response (stats t0)
      == total_response_time (stats t0)
         / inject_Z (Z.max 1 (requests_sent (stats t0))))%Q ->
  (success_rate (stats t)
   == inject_Z (success_count (stats t))
      / inject_Z (Z.max 1 (requests_sent (stats t))) * 100)%Q
  /\ (avg_response (stats t)
      == total_response_time (stats t)
         / inject_Z (Z.max 1 (requests_sent (stats t))))%Q.
Proof.
  intros Hv H0.
  induction Hv as [| io t' _ IH | e t' _ IH | r d t' _ IH | n t' _ IH
                   | e r t' _ IH | p t' _ IH | q t' _ IH | cb t' _ IH];
    try exact H0; try exact IH.
  unfold _send_request.
  destruct (io_exchange io) as [status th tb | err tf]; cbn; [| exact IH].
  split; reflexivity.
Qed.

Lemma percentage_bounds (succ sent : Z) :
  0 <= succ <= sent ->
  (0 <= inject_Z succ / inject_Z (Z.max 1 sent) * 100 <= 100)%Q.
Proof.
  intros [H0 H1].
  assert (Hm : (0 < inject_Z (Z.max 1 sent))%Q).
  { change 0%Q with (inject_Z 0). rewrite <- Zlt_Qlt. lia. }
  assert (Hlo : (0 <= inject_Z succ / inject_Z (Z.max 1 sent))%Q).
  { apply Qle_shift_div_l; [exact Hm |]. rewrite Qmult_0_l.
    change 0%Q with (inject_Z 0). rewrite <- Zle_Qle. exact H0. }
  assert (Hhi : (inject_Z succ / inject_Z (Z.max 1 sent) <= 1)%Q).
  { apply Qle_shift_div_r; [exact Hm |]. rewrite Qmult_1_l.
    rewrite <- Zle_Qle. lia. }
  split; lra.
Qed.

End RealDerived.

(** X14.  The derived figures of [RealLoadTest] stay consistent with its
    counters in every state of a run: [success_rate] is
    [success_count / max(1, requests_sent) * 100] and lies between 0 and
    100, and [avg_response] is [total_response_time / max(1,
    requests_sent)]; in particular neither is ever computed by a division
    by zero. *)
Theorem X14_real_derived_statistics :
  forall (tgt : string) (users ramp : Z) (t : RealTest.RealLoadTest),
    RealTest.visits (RealTest.new_test tgt users ramp) t ->
    (RealTest.success_rate (RealTest.stats t)
     == inject_Z (RealTest.success_count (RealTest.stats t))
        / inject_Z (Z.max 1 (RealTest.requests_sent (RealTest.stats t))) * 100)%Q
    /\ (0 <= RealTest.success_rate (RealTest.stats t) <= 100)%Q
    /\ (RealTest.avg_response (RealTest.stats t)
        == RealTest.total_response_time (RealTest.stats t)
           / inject_Z (Z.max 1 (RealTest.requests_sent (RealTest.stats t))))%Q.
Proof.
  intros tgt users ramp t Hv.
  destruct (real_visits_derived _ t Hv) as [Hs Ha].
  { split; vm_compute; reflexivity. }
  destruct (real_visits_counters _ t Hv) as (_ & H2 & _ & H4).
  cbn in H2. specialize (H4 ltac:(cbn; lia)).
  split; [exact Hs |]. split; [| exact Ha].
  rewrite Hs. apply percentage_bounds. lia.
Qed.

Lemma X14_real_derived_statistics_witness :
  let io := mkProbeIO (Responded 404 (1 # 10) (1 # 5)) 2 in
  let t := snd (RealTest._send_request io (RealTest.new_test "example.com" 10 60)) in
  (0 <= RealTest.success_rate (RealTest.stats t) <= 100)%Q.
Proof.
  intros io t.
  refine (proj1 (proj2 (X14_real_derived_statistics "example.com" 10 60 t _))).
  apply RealTest.visit_probe. apply RealTest.visit_refl.
Defined.

Section ObserverFacts.

Import RealTest.
Import Observer.

Lemma generate_load_progress (tk : Tick) (t : RealLoadTest) :
  progress_bounded t -> progress_bounded (snd (generate_load tk t)).
Proof.
  unfold progress_bounded. intros [Hp Hs].
  destruct (generate_load_same_run tk t) as [_ Hsnap]. rewrite Hsnap.
  split; [| exact Hs]. clear Hsnap.
  unfold generate_load. set (n := requests_needed _ t).
  destruct (real_gather_counted (Z.to_nat n) (tk_probes tk) 0
              (with_stats (set_current_users n (stats t)) t)) as (_ & _ & Hprog).
  destruct (gather _ _ _ _) as [results t2]. cbn [snd] in Hprog.
  cbn [stats with_stats set_current_users progress] in Hprog.
  destruct (ramp_up_time t2 =? 0); cbn [snd].
  - cbn [stats emit]. now rewrite Hprog.
  - destruct (Qltb _ _); cbn [snd]; cbn [stats emit with_stats update_progress progress];
      apply py_min_upper.
Qed.

Lemma start_loop_progress (script : list Tick) (t t' : RealLoadTest)
    (exn : option string) :
  progress_bounded t -> start_loop script t = Some (exn, t') -> progress_bounded t'.
Proof.
  revert t. induction script as [| tk rest IH]; intros t Hp; [discriminate |].
  cbn [start_loop].
  destruct (tk_stopped tk); [intros H; injection H as _ <-; exact Hp |].
  destruct (test_completed t); [intros H; injection H as _ <-; exact Hp |].
  destruct (Qle_bool _ _); [intros H; injection H as _ <-; exact Hp |].
  destruct (tk_paused tk); [apply IH; exact Hp |].
  pose proof (generate_load_progress tk t Hp) as Hg.
  destruct (generate_load tk t) as [results t1]. cbn [snd] in Hg.
  assert (Hcall : forall r, progress_bounded (emit (CallbackCall (stats t1) r) t1)).
  { intros r. destruct Hg as [G1 G2]. split; [exact G1 |].
    cbn [trace emit snapshots]. constructor; assumption. }
  destruct (callback t1) as [cb |].
  - destruct (cb _ _).
    + apply IH. destruct (Hcall CbReturn) as [C1 C2]. split; assumption.
    + intros H. injection H as _ <-. apply Hcall.
  - apply IH. exact Hg.
Qed.

Lemma start_progress session_error now0 script (t t' : RealLoadTest) (o : Outcome) :
  progress_bounded t -> start session_error now0 script t = Some (o, t') ->
  progress_bounded t'.
Proof.
  intros Hp. unfold start, start_try.
  assert (H0 : progress_bounded
                 (with_stats (set_start_time now0 (stats t)) (with_flags true false t)))
    by exact Hp.
  assert (Hfin : forall t1, progress_bounded t1 -> progress_bounded (snd (start_finally t1))).
  { intros t1 [P1 P2]. unfold start_finally.
    change (callback (with_flags false true t1)) with (callback t1).
    destruct (callback t1) as [cb |]; cbn [snd]; [| split; assumption].
    split; [cbn; apply Qle_refl |].
    cbn [trace emit snapshots with_stats with_flags].
    constructor; [cbn; apply Qle_refl | exact P2]. }
  destruct session_error as [e |].
  - intros H. injection H as H. rewrite (surjective_pairing (start_finally _)) in H.
    injection H as _ <-. apply Hfin. exact H0.
  - destruct (start_loop _ _) as [[[e |] t1] |] eqn:E; [| | discriminate].
    + intros H. injection H as H. rewrite (surjective_pairing (start_finally _)) in H.
      injection H as _ <-. apply Hfin.
      apply start_loop_progress in E; [exact E | exact H0].
    + intros H. injection H as H. rewrite (surjective_pairing (start_finally _)) in H.
      injection H as _ <-. apply Hfin.
      apply start_loop_progress in E; [exact E | exact H0].
Qed.

(** While every tick of the script is paused, the loop of [start] only
    sleeps. *)
Lemma start_loop_paused (script : list Tick) (t t' : RealLoadTest) (exn : option string) :
  (forall tk, In tk script -> tk_paused tk = true) ->
  start_loop script t = Some (exn, t') ->
  exn = None /\ stats t' = stats t
  /\ snapshots (trace t') = snapshots (trace t).
Proof.
  revert t. induction script as [| tk rest IH]; intros t Hp; [discriminate |].
  cbn [start_loop].
  destruct (tk_stopped tk); [intros H; injection H as <- <-; repeat split |].
  destruct (test_completed t); [intros H; injection H as <- <-; repeat split |].
  destruct (Qle_bool _ _); [intros H; injection H as <- <-; repeat split |].
  rewrite (Hp tk (or_introl eq_refl)).
  intros H. apply IH in H; [exact H |].
  intros tk' Hin. apply Hp. now right.
Qed.

End ObserverFacts.

(** X15.  The progress a [RealLoadTest] reports never exceeds 100: after
    [start], the progress field of the statistics and of every snapshot the
    callback was given, during the loop and at the end, is at most 100,
    also when the clock has run past the ramp-up time inside a batch. *)
Theorem X15_real_progress_never_exceeds_100 :
  forall (session_error : option string) (now0 : Q) (script : list RealTest.Tick)
         (t t' : RealTest.RealLoadTest) (o : RealTest.Outcome),
    Observer.progress_bounded t ->
    RealTest.start session_error now0 script t = Some (o, t') ->
    (RealTest.progress (RealTest.stats t') <= 100)%Q
    /\ Forall (fun s => (RealTest.progress s <= 100)%Q)
              (RealTest.snapshots (RealTest.trace t')).
Proof.
  intros session_error now0 script t t' o Hp Hrun.
  exact (start_progress session_error now0 script t t' o Hp Hrun).
Qed.

Lemma X15_real_progress_never_exceeds_100_witness :
  let probe := fun _ : nat => mkProbeIO (Responded 200 (1 # 20) (1 # 50)) 1 in
  let script := [ RealTest.mkTick false false 59 90 probe;
                  RealTest.mkTick false false 91 91 probe ] in
  let t := RealTest.set_callback (fun _ _ => CbReturn)
             (RealTest.new_test "example.com" 10 60) in
  exists o t',
    RealTest.start None 0 script t = Some (o, t')
    /\ Forall (fun s => (RealTest.progress s <= 100)%Q)
              (RealTest.snapshots (RealTest.trace t')).
Proof.
  intros probe script t.
  assert (Hrun : exists o t', RealTest.start None 0 script t = Some (o, t'))
    by (vm_compute; eexists _, _; reflexivity).
  destruct Hrun as (o & t' & Hrun). exists o, t'. split; [exact Hrun |].
  assert (Hp : Observer.progress_bounded t).
  { split; [vm_compute; discriminate | constructor]. }
  exact (proj2 (X15_real_progress_never_exceeds_100 None 0 script t t' o Hp Hrun)).
Defined.

(** X16.  Pausing a [RealLoadTest] stops the probes and the callbacks but
    not the clock: over ticks that are all paused the loop of [start] sends
    nothing and reports nothing, so the statistics and the snapshots are
    what they were, and the loop still ends when the clock reaches the
    ramp-up time or the test is stopped, without an error. *)
Theorem X16_real_pause_freezes_statistics :
  forall (script : list RealTest.Tick) (t : RealTest.RealLoadTest),
    (forall tk, In tk script -> RealTest.tk_paused tk = true) ->
    existsb (RealTest.ends_loop (RealTest.ramp_up_time t)
               (RealTest.start_time (RealTest.stats t))) script = true ->
    exists t',
      RealTest.start_loop script t = Some (None, t')
      /\ RealTest.stats t' = RealTest.stats t
      /\ RealTest.snapshots (RealTest.trace t') = RealTest.snapshots (RealTest.trace t).
Proof.
  intros script t Hpaused Hends.
  destruct (start_loop_terminates script t Hends) as [[exn t'] Hrun].
  destruct (start_loop_paused script t t' exn Hpaused Hrun) as (-> & Hs & Hsn).
  exists t'. repeat split; assumption.
Qed.

Lemma X16_real_pause_freezes_statistics_witness :
  let probe := fun _ : nat => mkProbeIO (Responded 200 (1 # 20) (1 # 50)) 1 in
  let script := [ RealTest.mkTick false true 1 1 probe;
                  RealTest.mkTick false true 30 30 probe;
                  RealTest.mkTick false true 61 61 probe ] in
  let t := RealTest.new_test "example.com" 10 60 in
  exists t', RealTest.start_loop script t = Some (None, t')
             /\ RealTest.stats t' = RealTest.stats t.
Proof.
  intros probe script t.
  destruct (X16_real_pause_freezes_statistics script t) as (t' & H1 & H2 & _).
  - intros tk [<- | [<- | [<- | []]]]; reflexivity.
  - reflexivity.
  - exists t'. split; assumption.
Defined.

(** ** Normalisation of [TestConfig] *)

Section Normalisation.

Local Open Scope string_scope.

Lemma lower_lower_char (c : ascii) :
  PyStr.lower_char (PyStr.lower_char c) = PyStr.lower_char c.
Proof. destruct c as [[] [] [] [] [] [] [] []]; vm_compute; reflexivity. Qed.

Lemma is_space_lower_char (c : ascii) :
  PyStr.is_space (PyStr.lower_char c) = PyStr.is_space c.
Proof. destruct c as [[] [] [] [] [] [] [] []]; vm_compute; reflexivity. Qed.

Lemma upper_lower_char (c : ascii) :
  PyStr.upper_char (PyStr.lower_char c) = PyStr.upper_char c.
Proof. destruct c as [[] [] [] [] [] [] [] []]; vm_compute; reflexivity. Qed.

Lemma lower_lower (s : string) : PyStr.lower (PyStr.lower s) = PyStr.lower s.
Proof.
  unfold PyStr.lower. induction s as [| c s IH]; cbn [PyStr.map_chars]; [reflexivity |].
  now rewrite lower_lower_char, IH.
Qed.

Lemma upper_lower (s : string) : PyStr.upper (PyStr.lower s) = PyStr.upper s.
Proof.
  unfold PyStr.lower, PyStr.upper.
  induction s as [| c s IH]; cbn [PyStr.map_chars]; [reflexivity |].
  now rewrite upper_lower_char, IH.
Qed.

Lemma lower_app (a b : string) : PyStr.lower (a ++ b) = PyStr.lower a ++ PyStr.lower b.
Proof.
  unfold PyStr.lower. induction a as [| c a IH]; cbn [append PyStr.map_chars];
    [reflexivity | now rewrite IH].
Qed.

Lemma lstrip_lower (s : string) : PyStr.lstrip (PyStr.lower s) = PyStr.lower (PyStr.lstrip s).
Proof.
  unfold PyStr.lower. induction s as [| c s IH]; [reflexivity |].
  cbn [PyStr.map_chars PyStr.lstrip]. rewrite is_space_lower_char.
  destruct (PyStr.is_space c); [exact IH | reflexivity].
Qed.

Lemma rstrip_lower (s : string) : PyStr.rstrip (PyStr.lower s) = PyStr.lower (PyStr.rstrip s).
Proof.
  unfold PyStr.lower. induction s as [| c s IH]; [reflexivity |].
  cbn [PyStr.map_chars PyStr.rstrip]. rewrite IH, is_space_lower_char.
  destruct (PyStr.rstrip s) as [| c' r']; cbn [PyStr.map_chars].
  - destruct (PyStr.is_space c); reflexivity.
  - reflexivity.
Qed.

Lemma rstrip_cons (c : ascii) (r : string) :
  PyStr.is_space c = false -> PyStr.rstrip (String c r) = String c (PyStr.rstrip r).
Proof.
  intros Hc. cbn [PyStr.rstrip]. rewrite Hc. destruct (PyStr.rstrip r); reflexivity.
Qed.

Lemma rstrip_idem (s : string) : PyStr.rstrip (PyStr.rstrip s) = PyStr.rstrip s.
Proof.
  induction s as [| c s IH]; [reflexivity |].
  cbn [PyStr.rstrip]. destruct (PyStr.rstrip s) as [| c' r'] eqn:E.
  - destruct (PyStr.is_space c) eqn:Hc; [reflexivity |].
    cbn [PyStr.rstrip]. now rewrite Hc.
  - cbn [PyStr.rstrip] in IH |- *. cbn [PyStr.rstrip]. 
    change (PyStr.rstrip (String c (String c' r')))
      with (match PyStr.rstrip (String c' r') with
            | EmptyString => if PyStr.is_space c then EmptyString else String c EmptyString
            | r0 => String c r0
            end).
    rewrite IH. reflexivity.
Qed.

Lemma lstrip_rstrip_lstrip (s : string) :
  PyStr.lstrip (PyStr.rstrip (PyStr.lstrip s)) = PyStr.rstrip (PyStr.lstrip s).
Proof.
  induction s as [| c s IH]; [reflexivity |].
  cbn [PyStr.lstrip]. destruct (PyStr.is_space c) eqn:Hc; [exact IH |].
  rewrite (rstrip_cons c s Hc). cbn [PyStr.lstrip]. now rewrite Hc.
Qed.

Lemma strip_idem (s : string) : PyStr.strip (PyStr.strip s) = PyStr.strip s.
Proof.
  unfold PyStr.strip. now rewrite lstrip_rstrip_lstrip, rstrip_idem.
Qed.

Lemma strip_lower (s : string) : PyStr.strip (PyStr.lower s) = PyStr.lower (PyStr.strip s).
Proof. unfold PyStr.strip. now rewrite lstrip_lower, rstrip_lower. Qed.

Lemma clean_target_idem (t : string) :
  Config.clean_target (Config.clean_target t) = Config.clean_target t.
Proof.
  unfold Config.clean_target. now rewrite strip_lower, strip_idem, lower_lower.
Qed.

Lemma rstrip_clean_target (t : string) :
  PyStr.rstrip (Config.clean_target t) = Config.clean_target t.
Proof.
  unfold Config.clean_target, PyStr.strip. now rewrite rstrip_lower, rstrip_idem.
Qed.

Lemma clean_target_scheme (proto t : string) :
  Config.clean_target (Config.scheme_of proto ++ Config.clean_target t)
  = Config.scheme_of proto ++ Config.clean_target t.
Proof.
  unfold Config.clean_target at 1. unfold PyStr.strip.
  assert (Hstrip : PyStr.rstrip (PyStr.lstrip (Config.scheme_of proto ++ Config.clean_target t))
                   = Config.scheme_of proto ++ Config.clean_target t).
  { unfold Config.scheme_of.
    destruct (String.eqb (PyStr.upper proto) "HTTPS"); cbn [append PyStr.lstrip];
      change (PyStr.is_space "h") with false; cbn iota;
      repeat (rewrite rstrip_cons by reflexivity);
      now rewrite rstrip_clean_target. }
  rewrite Hstrip, lower_app.
  unfold Config.clean_target. rewrite lower_lower.
  unfold Config.scheme_of. destruct (String.eqb (PyStr.upper proto) "HTTPS"); reflexivity.
Qed.

Lemma clean_target_add_prefix (proto t : string) :
  Config.clean_target (Config.add_prefix (Config.clean_target t) proto)
  = Config.add_prefix (Config.clean_target t) proto.
Proof.
  unfold Config.add_prefix.
  destruct (PyStr.startswith_any (Config.clean_target t) Config.scheme_prefixes);
    cbn [negb]; [apply clean_target_idem | apply clean_target_scheme].
Qed.

Lemma add_prefix_idem (proto t : string) :
  Config.add_prefix (Config.add_prefix t proto) proto = Config.add_prefix t proto.
Proof.
  unfold Config.add_prefix at 1. now rewrite add_prefix_scheme.
Qed.

End Normalisation.

(** X17.  The normalisation of [TestConfig] is idempotent: constructing a
    configuration again from the fields of a validated one succeeds and
    gives the same configuration, target and port included. *)
Theorem X17_config_normalisation_is_idempotent :
  forall (t : string) (p : Z) (proto : string) (d r : Z) (c : Config.TestConfig),
    Config.construct t p proto d r = Ok c ->
    Config.construct (Config.target c) (Config.port c) (Config.protocol c)
      (Config.duration c) (Config.rate c) = Ok c.
Proof.
  intros t p proto d r c Hc.
  apply construct_ok_inv in Hc. destruct Hc as (-> & _ & Hproto & Hport & Hd & Hr).
  cbn [Config.target Config.port Config.protocol Config.duration Config.rate].
  assert (Hdp : Config.default_port (Config.default_port p proto) proto
                = Config.default_port p proto).
  { unfold Config.default_port.
    destruct (Z.eqb p 80 && String.eqb (PyStr.upper proto) "HTTPS") eqn:E;
      [reflexivity | now rewrite E]. }
  rewrite construct_valid; try assumption.
  - now rewrite clean_target_add_prefix, add_prefix_idem, Hdp.
  - intros Hempty.
    pose proof (add_prefix_scheme (Config.clean_target t) proto) as Hs.
    rewrite Hempty in Hs. discriminate.
  - now rewrite Hdp.
Qed.

Lemma X17_config_normalisation_is_idempotent_witness :
  Config.construct "https://example.com" 443 "https" 60 100
  = Ok (Config.mkTestConfig "https://example.com" 443 "https" 60 100).
Proof.
  exact (X17_config_normalisation_is_idempotent "  Example.COM " 80 "https" 60 100
           (Config.mkTestConfig "https://example.com" 443 "https" 60 100) eq_refl).
Defined.

(** X18.  The emptiness check of [TestConfig] runs before the target is
    stripped: a target that is not empty but consists of whitespace only is
    accepted, and the configuration stores the bare scheme ("http://" or
    "https://") as its target. *)
Theorem X18_config_accepts_blank_target :
  forall (t : string) (p : Z) (proto : string) (d r : Z),
    t <> ""%string -> PyStr.strip t = ""%string ->
    In (PyStr.upper proto) Config.supported_protocols ->
    0 < p <= 65535 -> 0 < d -> 0 < r ->
    exists c,
      Config.construct t p proto d r = Ok c
      /\ Config.target c = Config.scheme_of proto.
Proof.
  intros t p proto d r Ht Hblank Hproto Hp Hd Hr.
  eexists. split.
  - apply construct_valid; try assumption. now apply default_port_range.
  - cbn [Config.target]. unfold Config.clean_target. rewrite Hblank.
    unfold Config.add_prefix, Config.scheme_of.
    destruct (String.eqb (PyStr.upper proto) "HTTPS"); reflexivity.
Qed.

Lemma X18_config_accepts_blank_target_witness :
  exists c,
    Config.construct "   " 8080 "tcp" 5 1 = Ok c
    /\ Config.target c = "http://"%string.
Proof.
  apply (X18_config_accepts_blank_target "   " 8080 "tcp" 5 1).
  - discriminate.
  - reflexivity.
  - simpl. right. right. left. reflexivity.
  - lia.
  - lia.
  - lia.
Defined.

(** ** The test the GUI starts *)

(** X19.  [start_test] validates a [TestConfig] and then builds the
    [RealLoadTest] from the raw entries.  When it succeeds, the test runs
    with the validated positive rate and duration, so the division by the
    ramp-up time cannot fail, and with the callback registered; but its
    target is the raw entry with "https://" put in front, so for a target
    without scheme and a protocol other than HTTPS the test probes an
    "https://" URL while the configuration says "http://". *)
Theorem X19_gui_test_ignores_the_config_target :
  forall (cb : Callback RealTest.Stats) (target protocol : string)
         (port duration rate : Z) (config : Config.TestConfig)
         (test : RealTest.RealLoadTest),
    Gui.start_test cb target protocol port duration rate = Ok (config, test) ->
    RealTest.ramp_up_time test = duration /\ 0 < duration
    /\ RealTest.target_rate test = rate /\ 0 < rate
    /\ RealTest.callback test = Some cb
    /\ (PyStr.startswith_any target Config.scheme_prefixes = false ->
        PyStr.startswith_any (Config.clean_target target) Config.scheme_prefixes = false ->
        PyStr.upper protocol <> "HTTPS"%string ->
        RealTest.target test = ("https://" ++ target)%string
        /\ Config.target config = ("http://" ++ Config.clean_target target)%string
        /\ RealTest.target test <> Config.target config).
Proof.
  intros cb target protocol port duration rate config test. unfold Gui.start_test.
  destruct (Config.construct target port (PyStr.lower protocol) duration rate)
    as [c | e] eqn:Hc; [| discriminate].
  intros H. injection H as <- <-.
  apply construct_ok_inv in Hc. destruct Hc as (-> & _ & _ & _ & Hd & Hr).
  repeat split; try assumption.
  - cbn [RealTest.target RealTest.set_callback RealTest.new_test].
    rewrite H. reflexivity.
  - cbn [Config.target]. unfold Config.add_prefix. rewrite H0. cbn [negb].
    unfold Config.scheme_of. rewrite upper_lower.
    destruct (String.eqb_spec (PyStr.upper protocol) "HTTPS"); [contradiction | reflexivity].
  - cbn [RealTest.target RealTest.set_callback RealTest.new_test Config.target].
    rewrite H. unfold Config.add_prefix. rewrite H0. cbn [negb].
    unfold Config.scheme_of. rewrite upper_lower.
    destruct (String.eqb_spec (PyStr.upper protocol) "HTTPS"); [contradiction |].
    cbn [append]. intros Heq. discriminate Heq.
Qed.

Lemma X19_gui_test_ignores_the_config_target_witness :
  let cb : Callback RealTest.Stats := fun _ _ => CbReturn in
  RealTest.target (RealTest.set_callback cb (RealTest.new_test "example.com" 10 60))
  <> Config.target (Config.mkTestConfig "http://example.com" 80 "http" 60 10).
Proof.
  intros cb.
  destruct (X19_gui_test_ignores_the_config_target cb "example.com" "HTTP" 80 60 10
              (Config.mkTestConfig "http://example.com" 80 "http" 60 10)
              (RealTest.set_callback cb (RealTest.new_test "example.com" 10 60))
              eq_refl) as (_ & _ & _ & _ & _ & H).
  apply H.
  - reflexivity.
  - reflexivity.
  - discriminate.
Defined.

(** ** [ensure_https] and the clean-up of old reports *)

Section EnsureHttps.

Local Open Scope string_scope.

Lemma startswith_split (p s : string) :
  PyStr.startswith s p = true -> s = p ++ WebsiteAnalyzer.drop (String.length p) s.
Proof.
  revert s. induction p as [| a p IH]; intros s; [reflexivity |].
  cbn [PyStr.startswith]. destruct s as [| b s]; [discriminate |].
  destruct (Ascii.eqb_spec a b) as [<- | Hne]; [| discriminate].
  cbn [andb String.length WebsiteAnalyzer.drop append]. intros H.
  now rewrite <- (IH s H).
Qed.

Lemma https_is_not_http (s : string) :
  PyStr.startswith s "https://" = true -> PyStr.startswith s "http://" = false.
Proof.
  intros H. apply startswith_split in H. rewrite H. reflexivity.
Qed.

Lemma ensure_https_scheme (url : string) :
  PyStr.startswith (WebsiteAnalyzer.ensure_https url) "https://" = true.
Proof.
  unfold WebsiteAnalyzer.ensure_https.
  destruct (PyStr.startswith_any url Config.scheme_prefixes) eqn:Hany; cbn [negb];
    [| reflexivity].
  destruct (PyStr.startswith url "http://") eqn:Hhttp; [reflexivity |].
  unfold PyStr.startswith_any, Config.scheme_prefixes in Hany. cbn [existsb] in Hany.
  rewrite Hhttp in Hany. cbn [orb] in Hany.
  now rewrite orb_false_r in Hany.
Qed.

End EnsureHttps.

(** X20.  [ensure_https] always returns a URL that starts with "https://":
    a URL that starts with neither "http://" nor "https://" gets the prefix
    "https://" and is otherwise kept, "http://" is replaced by "https://"
    with the rest of the URL kept, and an "https://" URL is returned as it
    is; applying it twice is the same as applying it once. *)
Theorem X20_ensure_https :
  forall url rest : string,
    PyStr.startswith (WebsiteAnalyzer.ensure_https url) "https://" = true
    /\ WebsiteAnalyzer.ensure_https (WebsiteAnalyzer.ensure_https url)
       = WebsiteAnalyzer.ensure_https url
    /\ WebsiteAnalyzer.ensure_https ("http://" ++ rest) = ("https://" ++ rest)%string
    /\ WebsiteAnalyzer.ensure_https ("https://" ++ rest) = ("https://" ++ rest)%string
    /\ (PyStr.startswith url "http://" = false ->
        PyStr.startswith url "https://" = false ->
        WebsiteAnalyzer.ensure_https url = ("https://" ++ url)%string).
Proof.
  intros url rest. split; [apply ensure_https_scheme |].
  split; [| split; [reflexivity | split; [reflexivity |]]].
  - pose proof (ensure_https_scheme url) as Hs.
    unfold WebsiteAnalyzer.ensure_https at 1.
    unfold PyStr.startswith_any, Config.scheme_prefixes. cbn [existsb].
    rewrite Hs, (https_is_not_http _ Hs). reflexivity.
  - intros Hhttp Hhttps. unfold WebsiteAnalyzer.ensure_https.
    unfold PyStr.startswith_any, Config.scheme_prefixes. cbn [existsb].
    rewrite Hhttp, Hhttps. reflexivity.
Qed.

Lemma X20_ensure_https_witness :
  WebsiteAnalyzer.ensure_https "Example.com/a" = "https://Example.com/a"%string.
Proof.
  apply (proj2 (proj2 (proj2 (proj2
           (X20_ensure_https "Example.com/a"%string ""%string))))); reflexivity.
Defined.

Section Cleanup.

Import Visualizer.

Lemma cleanup_loop_spec {F : Type} (unlink_fails : F -> bool) (reports : list F) :
  let '(deleted, kept, warned) := cleanup_loop unlink_fails reports in
  reports = deleted ++ kept
  /\ Forall (fun f => unlink_fails f = false) deleted
  /\ if warned
     then (max_reports < List.length kept)%nat
          /\ exists f rest, kept = f :: rest /\ unlink_fails f = true
     else List.length kept = Nat.min (List.length reports) max_reports.
Proof.
  induction reports as [| f rest IH]; [cbn; repeat split; constructor |].
  cbn [cleanup_loop].
  destruct (Nat.ltb_spec max_reports (List.length (f :: rest))) as [Hgt | Hle].
  - destruct (unlink_fails f) eqn:Hf.
    + cbn [app]. split; [reflexivity |]. split; [constructor |].
      split; [exact Hgt |]. exists f, rest. split; [reflexivity | exact Hf].
    + destruct (cleanup_loop unlink_fails rest) as [[deleted kept] warned].
      destruct IH as (H1 & H2 & H3). cbn [app]. split; [now rewrite H1 |].
      split; [constructor; assumption |].
      destruct warned; [exact H3 |].
      rewrite H3. cbn [List.length] in Hgt |- *. unfold max_reports in *. lia.
  - cbn [app]. split; [reflexivity |]. split; [constructor |].
    unfold max_reports in *. lia.
Qed.

End Cleanup.

(** X21.  [_cleanup_old_reports] deletes report files from the oldest on
    and never one of the newest ten: the deleted files followed by the files
    left are the sorted listing.  When no [unlink] raises, exactly
    [min(n, 10)] files are left; when one raises, the loop stops there with
    that file and all newer ones left, more than ten. *)
Theorem X21_cleanup_keeps_the_newest_reports :
  forall (F : Type) (unlink_fails : F -> bool) (reports : list F),
    let '(deleted, kept, warned) := Visualizer.cleanup_loop unlink_fails reports in
    reports = deleted ++ kept
    /\ Forall (fun f => unlink_fails f = false) deleted
    /\ if warned
       then (Visualizer.max_reports < List.length kept)%nat
            /\ exists f rest, kept = f :: rest /\ unlink_fails f = true
       else List.length kept = Nat.min (List.length reports) Visualizer.max_reports.
Proof.
  intros F unlink_fails reports. apply cleanup_loop_spec.
Qed.

(** ** Snapshots of a run of [RealLoadTest] *)

Section SnapshotCount.

Import RealTest.
Import Observer.

Lemma start_loop_snapshots (cb : Callback Stats) (script : list Tick)
    (t t' : RealLoadTest) (exn : option string) :
  callback t = Some cb ->
  (forall h s, cb h s = CbReturn) ->
  test_completed t = false ->
  start_loop script t = Some (exn, t') ->
  exn = None
  /\ emitted t'
     = (emitted t
        + unpaused_passes (ends_loop (ramp_up_time t) (start_time (stats t))) script)%nat.
Proof.
  intros Hcb Hret. revert t Hcb.
  induction script as [| tk rest IH]; intros t Hcb Hdone; [discriminate |].
  cbn [start_loop unpaused_passes]. unfold ends_loop at 1. rewrite Hdone.
  destruct (tk_stopped tk); cbn [orb].
  { intros H. injection H as <- <-. split; [reflexivity |]. unfold emitted. cbn. lia. }
  destruct (Qle_bool _ _).
  { intros H. injection H as <- <-. split; [reflexivity |]. unfold emitted. cbn. lia. }
  destruct (tk_paused tk).
  { intros H. apply IH in H; [| exact Hcb | exact Hdone].
    destruct H as [He Hn]. split; [exact He |]. rewrite Hn. unfold emitted. cbn. lia. }
  destruct (generate_load_same_run tk t) as [(G1 & G2 & G3 & G4) Gs].
  destruct (generate_load tk t) as [results t1]. cbn [snd] in *.
  rewrite G3, Hcb, Hret.
  intros H. apply IH in H.
  - destruct H as [He Hn]. split; [exact He |]. rewrite Hn.
    unfold emitted. cbn [trace emit snapshots stats ramp_up_time List.length].
    rewrite Gs, G1, G2. lia.
  - cbn. now rewrite G3.
  - cbn. now rewrite G4.
Qed.

End SnapshotCount.

(** X22.  With a callback that returns, [RealLoadTest.start] reports once
    per pass in which the test is not paused and once more at the end: the
    number of snapshots grows by the number of unpaused passes plus one, no
    snapshot is emitted for a paused pass, and [start] returns normally. *)
Theorem X22_real_snapshots_per_pass :
  forall (cb : Callback RealTest.Stats) (now0 : Q) (script : list RealTest.Tick)
         (t t' : RealTest.RealLoadTest) (o : RealTest.Outcome),
    RealTest.callback t = Some cb ->
    (forall h s, cb h s = CbReturn) ->
    RealTest.start None now0 script t = Some (o, t') ->
    o = RealTest.Returned
    /\ RealTest.emitted t'
       = (RealTest.emitted t
          + Observer.unpaused_passes
              (RealTest.ends_loop (RealTest.ramp_up_time t) now0) script
          + 1)%nat.
Proof.
  intros cb now0 script t t' o Hcb Hret. unfold RealTest.start, RealTest.start_try.
  destruct (RealTest.start_loop _ _) as [[exn t1] |] eqn:E; [| discriminate].
  pose proof (start_loop_same_run _ _ _ _ E) as (_ & _ & Hc1 & _).
  apply (start_loop_snapshots cb) in E; [| exact Hcb | exact Hret | reflexivity].
  destruct E as [-> Hn]. cbn in Hc1.
  unfold RealTest.start_finally.
  change (RealTest.callback (RealTest.with_flags false true t1))
    with (RealTest.callback t1).
  rewrite Hc1, Hcb, Hret.
  intros H. injection H as <- <-. split; [reflexivity |].
  unfold RealTest.emitted in *. cbn [RealTest.trace RealTest.emit RealTest.snapshots
    RealTest.with_stats RealTest.with_flags List.length].
  cbn in Hn. rewrite Hn. lia.
Qed.

Lemma X22_real_snapshots_per_pass_witness :
  let probe := fun _ : nat => mkProbeIO (Failed "timeout" 30) 31 in
  let script := [ RealTest.mkTick false false 1 1 probe;
                  RealTest.mkTick false true 2 2 probe;
                  RealTest.mkTick false false 3 3 probe;
                  RealTest.mkTick false false 61 61 probe ] in
  let cb : Callback RealTest.Stats := fun _ _ => CbReturn in
  let t := RealTest.set_callback cb (RealTest.new_test "example.com" 10 60) in
  exists o t', RealTest.start None 0 script t = Some (o, t')
               /\ RealTest.emitted t' = 3%nat.
Proof.
  intros probe script cb t.
  assert (Hrun : exists o t', RealTest.start None 0 script t = Some (o, t'))
    by (vm_compute; eexists _, _; reflexivity).
  destruct Hrun as (o & t' & Hrun). exists o, t'. split; [exact Hrun |].
  rewrite (proj2 (X22_real_snapshots_per_pass cb 0 script t t' o eq_refl
                    (fun _ _ => eq_refl) Hrun)).
  reflexivity.
Defined.
